(** * Calendar-Custom-Color: the ICS-to-colouring pipeline

    A shallow embedding of [src/popup.js] (the [Calendar] class with its ICS
    parser, the working calendar list, the settings store writes) and of
    [src/content.js] (the date codec, colour resolution and the day-cell
    annotator), followed by the properties of the specification checked
    against it.

    Conventions of the embedding.
    - A JavaScript string is a [string]: a sequence of character codes below
      256.  The code inspects only ASCII characters (colon, CR, LF, digits,
      sign, white space), so wider code units behave like any other
      ordinary character.
    - [undefined] and [null] are [None]; a property that is absent and a
      property holding [undefined] read the same everywhere in this
      program, so an object field is an [option].
    - The only numbers the program computes with are [NaN] and integers
      ([parseInt] results, array lengths, bit fields); see [number].
    - A plain object used as a dictionary is a [gmap string string] of its
      own properties; reading [obj[key]] is [js_get], which also finds the
      properties every plain object inherits from [Object.prototype]. *)

From Stdlib Require Import ZArith Ascii Lia.
From Stdlib Require Import Numbers.DecimalString Numbers.DecimalPos.
From stdpp Require Import base option list gmap strings.

Open Scope Z_scope.

(* ===================================================================== *)
(** * JavaScript primitives used by the two scripts                       *)
(* ===================================================================== *)

(** ** Numbers *)

(** [parseInt] yields [NaN] or an integer; negative zero is identified with
    zero, which no operation used here (comparison, [ToInt32], template
    literal) can tell apart. *)
Inductive number : Type :=
  | NaN
  | Num (z : Z).

(** [ToInt32]: [NaN] becomes 0, an integer is reduced modulo 2^32 into the
    signed range. *)
Definition toInt32 (x : number) : Z :=
  match x with
  | NaN => 0
  | Num z => (z + 2 ^ 31) mod 2 ^ 32 - 2 ^ 31
  end.

(** [a >> n] for a shift count [0 <= n < 32]. *)
Definition js_shr (a : number) (n : Z) : number :=
  Num (Z.shiftr (toInt32 a) n).

(** [a & b]. *)
Definition js_and (a b : number) : number :=
  Num (Z.land (toInt32 a) (toInt32 b)).

(** [a + b] on numbers. *)
Definition js_add (a b : number) : number :=
  match a, b with
  | Num x, Num y => Num (x + y)
  | _, _ => NaN
  end.

(** [a < b] and [a >= b]: every comparison with [NaN] is false. *)
Definition js_lt (a b : number) : bool :=
  match a, b with
  | Num x, Num y => x <? y
  | _, _ => false
  end.

Definition js_ge (a b : number) : bool :=
  match a, b with
  | Num x, Num y => y <=? x
  | _, _ => false
  end.

(** Unpadded decimal rendering of an integer. *)
Definition decimal (z : Z) : string :=
  NilZero.string_of_int (Z.to_int z).

(** [`${x}`] for a number (integers below 10^21 in magnitude, which covers
    every number rendered by this program). *)
Definition number_toString (x : number) : string :=
  match x with
  | NaN => "NaN"
  | Num z => decimal z
  end.

(** ** Characters and strings *)

Definition LF : ascii := ascii_of_nat 10.
Definition CR : ascii := ascii_of_nat 13.
Definition colon : ascii := ascii_of_nat 58.

Definition char_eqb (a b : ascii) : bool := Ascii.eqb a b.

(** Truthiness of a string value: only the empty string is falsy. *)
Definition truthy (s : string) : bool :=
  match s with
  | EmptyString => false
  | String _ _ => true
  end.

(** Truthiness of a possibly-undefined string value. *)
Definition truthy_opt (o : option string) : bool :=
  match o with
  | None => false
  | Some s => truthy s
  end.

(** [o || null] on a possibly-undefined string. *)
Definition or_null (o : option string) : option string :=
  if truthy_opt o then o else None.

(** [a === b] where [a] may be undefined and [b] is a string literal. *)
Definition strict_eq (a : option string) (b : string) : bool :=
  match a with
  | None => false
  | Some s => String.eqb s b
  end.

(** Property key of a possibly-undefined value used in [obj[key]]. *)
Definition to_key (o : option string) : string :=
  match o with
  | None => "undefined"
  | Some s => s
  end.

(** The properties a plain object inherits from [Object.prototype], each
    with the text its value has once converted to a string (as V8, the
    engine behind the [chrome] API, renders it): eleven functions and the
    [__proto__] accessor, whose value is [Object.prototype] itself.  All of
    them are truthy; the text is what an assignment to a style property
    receives. *)
Definition objectPrototype : list (string * string) :=
  [ ("constructor", "function Object() { [native code] }");
    ("__defineGetter__", "function __defineGetter__() { [native code] }");
    ("__defineSetter__", "function __defineSetter__() { [native code] }");
    ("hasOwnProperty", "function hasOwnProperty() { [native code] }");
    ("__lookupGetter__", "function __lookupGetter__() { [native code] }");
    ("__lookupSetter__", "function __lookupSetter__() { [native code] }");
    ("isPrototypeOf", "function isPrototypeOf() { [native code] }");
    ("propertyIsEnumerable", "function propertyIsEnumerable() { [native code] }");
    ("toString", "function toString() { [native code] }");
    ("valueOf", "function valueOf() { [native code] }");
    ("__proto__", "[object Object]");
    ("toLocaleString", "function toLocaleString() { [native code] }") ].

(** The inherited property named [key], if there is one. *)
Definition inherited (key : string) : option string :=
  snd <$> List.find (fun entry => String.eqb (fst entry) key) objectPrototype.

(** [obj[key]] on a plain object: the own property when there is one,
    else the inherited one, else undefined. *)
Definition js_get (obj : gmap string string) (key : string) : option string :=
  match obj !! key with
  | Some v => Some v
  | None => inherited key
  end.

(** [s.split(sep)] for a one-character separator: every occurrence of the
    separator ends a piece; the result is never empty. *)
Fixpoint js_split (sep : ascii) (s : string) : list string :=
  match s with
  | EmptyString => [EmptyString]
  | String c rest =>
      if char_eqb c sep then EmptyString :: js_split sep rest
      else match js_split sep rest with
           | piece :: pieces => String c piece :: pieces
           | [] => [String c EmptyString]
           end
  end.

(** [s.split(sep, limit)]: the full split truncated to [limit] pieces. *)
Definition js_split_limit (sep : ascii) (limit : nat) (s : string) : list string :=
  take limit (js_split sep s).

Definition starts_with_LF (s : string) : bool :=
  match s with
  | String c _ => char_eqb c LF
  | EmptyString => false
  end.

(** [s.split(/\r?\n/)]: scanning from the left, a line ends at LF or at CR
    immediately followed by LF; the terminator is dropped. *)
Fixpoint split_lines (s : string) : list string :=
  match s with
  | EmptyString => [EmptyString]
  | String c rest =>
      if char_eqb c LF then EmptyString :: split_lines rest
      else if char_eqb c CR && starts_with_LF rest then split_lines rest
      else match split_lines rest with
           | line :: lines => String c line :: lines
           | [] => [String c EmptyString]
           end
  end.

(** [s.substring(a, b)] for [a <= b]. *)
Definition js_substring (a b : nat) (s : string) : string :=
  String.substring a (b - a) s.

(** White space skipped by [parseInt]: TAB, LF, VT, FF, CR, SP, NBSP. *)
Definition is_white (c : ascii) : bool :=
  let n := nat_of_ascii c in
  ((9 <=? n)%nat && (n <=? 13)%nat) || (n =? 32)%nat || (n =? 160)%nat.

Definition digit_of (c : ascii) : option Z :=
  let n := nat_of_ascii c in
  if ((48 <=? n)%nat && (n <=? 57)%nat) then Some (Z.of_nat (n - 48)) else None.

Fixpoint skip_white (s : string) : string :=
  match s with
  | String c rest => if is_white c then skip_white rest else s
  | EmptyString => EmptyString
  end.

(** Longest prefix of decimal digits, as a number; [acc] is [None] until
    the first digit is read. *)
Fixpoint read_digits (acc : option Z) (s : string) : option Z :=
  match s with
  | String c rest =>
      match digit_of c with
      | Some d => read_digits (Some (10 * default 0 acc + d)) rest
      | None => acc
      end
  | EmptyString => acc
  end.

(** [parseInt(s, 10)]: skip white space, read an optional sign, then the
    longest run of digits; [NaN] when there is no digit.  The result is
    the integer read; [parseInt] returns it as a double, which is that
    integer as long as its magnitude does not exceed 2^53 (beyond, the
    double is the nearest one and this definition does not follow it). *)
Definition parseInt10 (s : string) : number :=
  let t := skip_white s in
  let '(neg, body) :=
    match t with
    | String c rest =>
        if char_eqb c "-"%char then (true, rest)
        else if char_eqb c "+"%char then (false, rest)
        else (false, t)
    | EmptyString => (false, t)
    end in
  match read_digits None body with
  | Some v => Num (if neg then - v else v)
  | None => NaN
  end.

(* ===================================================================== *)
(** * content.js: the date codec                                          *)
(* ===================================================================== *)

(** [keyToDate(dataDateKey)]. *)
Definition keyToDate (dataDateKey : number) : string :=
  let yearOffset := js_and (js_shr dataDateKey 9) (Num 255) in
  let month := js_and (js_shr dataDateKey 5) (Num 15) in
  let day := js_and dataDateKey (Num 31) in
  let year := js_add (Num 1970) yearOffset in
  number_toString year +:+ "-" +:+ number_toString month +:+ "-" +:+ number_toString day.

(** [formatICSDate(icsDate)]; the argument is [event.start], possibly
    undefined. *)
Definition formatICSDate (icsDate : option string) : string :=
  match icsDate with
  | None => ""
  | Some s =>
      if negb (truthy s) || (String.length s <? 8)%nat then ""
      else
        let year := parseInt10 (js_substring 0 4 s) in
        let month := parseInt10 (js_substring 4 6 s) in
        let day := parseInt10 (js_substring 6 8 s) in
        number_toString year +:+ "-" +:+ number_toString month +:+ "-" +:+ number_toString day
  end.

(* ===================================================================== *)
(** * popup.js: the Calendar class and its ICS parser                     *)
(* ===================================================================== *)

(** An event object: [start], [end], [name] and [calendarTitle] are set by
    assignment and may be missing. *)
Record CalendarEvent : Type := mkEvent {
  start : option string;
  end_ : option string;
  name : option string;
  calendarTitle : option string
}.

(** [currentEvent = {}]. *)
Definition emptyEvent : CalendarEvent :=
  {| start := None; end_ := None; name := None; calendarTitle := None |}.

(** A [Calendar] object (and its persisted form [{title, events}]). *)
Record Calendar : Type := mkCalendar {
  title : option string;
  events : list CalendarEvent
}.

Definition getEvents (cal : Calendar) : list CalendarEvent := events cal.
Definition getTitle (cal : Calendar) : option string := title cal.

(** [new Calendar("")]: the constructor's initial fields. *)
Definition newCalendar : Calendar := {| title := Some ""; events := [] |}.

(** The variables the [forEach] callback of [parseICS] reads and writes:
    [this.title], [this.events] and the local [currentEvent]. *)
Record ParseState : Type := mkParseState {
  ps_title : option string;
  ps_events : list CalendarEvent;
  currentEvent : option CalendarEvent
}.

Definition set_start (v : option string) (e : CalendarEvent) : CalendarEvent :=
  {| start := v; end_ := end_ e; name := name e; calendarTitle := calendarTitle e |}.
Definition set_end (v : option string) (e : CalendarEvent) : CalendarEvent :=
  {| start := start e; end_ := v; name := name e; calendarTitle := calendarTitle e |}.
Definition set_name (v : option string) (e : CalendarEvent) : CalendarEvent :=
  {| start := start e; end_ := end_ e; name := v; calendarTitle := calendarTitle e |}.
Definition set_calendarTitle (v : option string) (e : CalendarEvent) : CalendarEvent :=
  {| start := start e; end_ := end_ e; name := name e; calendarTitle := v |}.

(** [if (currentEvent) currentEvent.f = value]. *)
Definition assign_field (f : option string -> CalendarEvent -> CalendarEvent)
    (value : option string) (st : ParseState) : ParseState :=
  match currentEvent st with
  | Some ev =>
      {| ps_title := ps_title st; ps_events := ps_events st;
         currentEvent := Some (f value ev) |}
  | None => st
  end.

(** The body of the [forEach] callback, for one line. *)
Definition parseLine (st : ParseState) (line : string) : ParseState :=
  let parts := js_split_limit colon 2 line in
  let key := parts !! 0%nat in
  let value := parts !! 1%nat in
  if strict_eq key "X-WR-CALNAME" then
    {| ps_title := value; ps_events := ps_events st; currentEvent := currentEvent st |}
  else if String.eqb line "BEGIN:VEVENT" then
    {| ps_title := ps_title st; ps_events := ps_events st; currentEvent := Some emptyEvent |}
  else if String.eqb line "END:VEVENT" then
    match currentEvent st with
    | Some ev =>
        {| ps_title := ps_title st;
           ps_events := ps_events st ++ [set_calendarTitle (ps_title st) ev];
           currentEvent := None |}
    | None => st
    end
  else if strict_eq key "DTSTART;VALUE=DATE" then assign_field set_start value st
  else if strict_eq key "DTEND;VALUE=DATE" then assign_field set_end value st
  else if strict_eq key "SUMMARY" then assign_field set_name value st
  else st.

(** The loop of [parseICS] over an array of lines. *)
Definition parseLines (st : ParseState) (lines : list string) : ParseState :=
  fold_left parseLine lines st.

(** The variables on entry to the loop of [this.parseICS]: [this.events]
    has been reset, [this.title] is as it was, no event is open. *)
Definition initialState (this : Calendar) : ParseState :=
  {| ps_title := title this; ps_events := []; currentEvent := None |}.

(** [this.parseICS(data)]. *)
Definition parseICS (this : Calendar) (data : string) : Calendar :=
  let st := parseLines (initialState this) (split_lines data) in
  {| title := ps_title st; events := ps_events st |}.

(* ===================================================================== *)
(** * The settings store                                                  *)
(* ===================================================================== *)

(** The document held by [chrome.storage.sync]; every key may be absent.
    The same record, with the keys it carries, is the argument of [set]
    and the result of [get]. *)
Record SettingsDocument : Type := mkDoc {
  doc_dayColors : option (gmap string string);
  doc_calendarColors : option (gmap string string);
  doc_calendarEvents : option (list CalendarEvent);
  doc_loadedCalendars : option (list Calendar)
}.

Definition emptyDoc : SettingsDocument :=
  {| doc_dayColors := None; doc_calendarColors := None;
     doc_calendarEvents := None; doc_loadedCalendars := None |}.

Definition override {A : Type} (new old : option A) : option A :=
  match new with
  | Some _ => new
  | None => old
  end.

(** [chrome.storage.sync.set(items)]: the keys of [items] are replaced,
    the other keys are kept. *)
Definition storage_set (items doc : SettingsDocument) : SettingsDocument :=
  {| doc_dayColors := override (doc_dayColors items) (doc_dayColors doc);
     doc_calendarColors := override (doc_calendarColors items) (doc_calendarColors doc);
     doc_calendarEvents := override (doc_calendarEvents items) (doc_calendarEvents doc);
     doc_loadedCalendars := override (doc_loadedCalendars items) (doc_loadedCalendars doc) |}.

(* ===================================================================== *)
(** * popup.js: the working calendar list and its handlers                *)
(* ===================================================================== *)

(** The popup's global [loadedCalendars], the store it writes to, and the
    [set] calls issued so far (oldest first). *)
Record Popup : Type := mkPopup {
  loadedCalendars : list Calendar;
  storage : SettingsDocument;
  setCalls : list SettingsDocument
}.

(** Assignment to (or in-place update of) the global [loadedCalendars]. *)
Definition set_loadedCalendars (l : list Calendar) (p : Popup) : Popup :=
  {| loadedCalendars := l; storage := storage p; setCalls := setCalls p |}.

(** A call [chrome.storage.sync.set(items, ...)] made by the popup. *)
Definition storage_sync_set (items : SettingsDocument) (p : Popup) : Popup :=
  {| loadedCalendars := loadedCalendars p;
     storage := storage_set items (storage p);
     setCalls := setCalls p ++ [items] |}.

(** First index touched by [splice(start, ...)] on an array of length
    [len]: [NaN] counts as 0, a negative start is taken from the end. *)
Definition relative_start (start : number) (len : nat) : nat :=
  match start with
  | NaN => 0%nat
  | Num z =>
      if z <? 0 then Z.to_nat (Z.max (Z.of_nat len + z) 0)
      else Z.to_nat (Z.min z (Z.of_nat len))
  end.

(** The array after [arr.splice(start, deleteCount)]. *)
Definition splice {A : Type} (start : number) (deleteCount : nat) (arr : list A) : list A :=
  let a := relative_start start (length arr) in
  let dc := Nat.min deleteCount (length arr - a) in
  take a arr ++ drop (a + dc) arr.

(** [loadedCalendars.map(cal => ({title: cal.getTitle(), events: cal.getEvents()}))]. *)
Definition storedCalendars (l : list Calendar) : list Calendar :=
  map (fun cal => {| title := getTitle cal; events := getEvents cal |}) l.

(** [removeCalendar(index)]. *)
Definition removeCalendar (index : number) (p : Popup) : Popup :=
  if js_lt index (Num 0) || js_ge index (Num (Z.of_nat (length (loadedCalendars p)))) then p
  else
    let p := set_loadedCalendars (splice index 1 (loadedCalendars p)) p in
    storage_sync_set
      {| doc_dayColors := None; doc_calendarColors := None; doc_calendarEvents := None;
         doc_loadedCalendars := Some (storedCalendars (loadedCalendars p)) |} p.

(** The timer callback of the load button, once [calendar] has been built
    from the chosen file. *)
Definition loadCalendar (calendar : Calendar) (p : Popup) : Popup :=
  let p := set_loadedCalendars (loadedCalendars p ++ [calendar]) p in
  storage_sync_set
    {| doc_dayColors := None; doc_calendarColors := None; doc_calendarEvents := None;
       doc_loadedCalendars := Some (storedCalendars (loadedCalendars p)) |} p.

(** The [forEach] of the submit handler that flattens the events. *)
Definition gatherEvents (l : list Calendar) : list CalendarEvent :=
  fold_left (fun calendarEvents calendar => calendarEvents ++ getEvents calendar) l [].

(** The submit handler of the settings form; [dayColors] and
    [calendarColors] are the maps gathered from the form. *)
Definition submitSettings (dayColors calendarColors : gmap string string) (p : Popup) : Popup :=
  let calendarEvents := gatherEvents (loadedCalendars p) in
  storage_sync_set
    {| doc_dayColors := Some dayColors; doc_calendarColors := Some calendarColors;
       doc_calendarEvents := Some calendarEvents;
       doc_loadedCalendars := Some (storedCalendars (loadedCalendars p)) |} p.

(** The derived-cache invariant of the persisted document: [calendarEvents]
    is the concatenation, in order, of the events of [loadedCalendars]
    (an absent key reads as the empty sequence). *)
Definition cache_invariant (doc : SettingsDocument) : Prop :=
  default [] (doc_calendarEvents doc)
  = concat (map events (default [] (doc_loadedCalendars doc))).

(* ===================================================================== *)
(** * content.js: colour resolution and the day-cell annotator            *)
(* ===================================================================== *)

(** What the script asks of the browser: the long English weekday name of
    a date string ([new Date(s).toLocaleDateString('en-US', ...)]) and the
    dark colour-scheme preference. *)
Class HostPlatform : Type := {
  getWeekDayName : string -> string;
  detectDarkMode : bool
}.

(** A day cell: its two date attributes, the marker [dataset.customColored]
    and the two inline style properties the script writes. *)
Record Cell : Type := mkCell {
  data_datekey : option string;
  data_date : option string;
  customColored : option string;
  backgroundColor : string;
  opacity : string
}.

(** The writes the script performs on a cell. *)
Inductive Mutation : Type :=
  | SetMarker (v : string)
  | SetBackgroundColor (v : string)
  | SetOpacity (v : string)
  | DeleteMarker.

(** The [dateStr] computed at the top of the per-cell callback. *)
Definition cellDate (cell : Cell) : string :=
  match data_datekey cell with
  | Some attr => keyToDate (parseInt10 attr)
  | None =>
      match data_date cell with
      | Some attr => attr
      | None => ""
      end
  end.

(** The test of the [for ... of] loop for one event. *)
Definition eventMatches (calendarColors : gmap string string) (dateStr : string)
    (event : CalendarEvent) : bool :=
  String.eqb (formatICSDate (start event)) dateStr
  && truthy_opt (js_get calendarColors (to_key (calendarTitle event))).

(** The [for ... of] loop with its [break]; [appliedColor] is the value of
    the variable on entry. *)
Fixpoint scanEvents (calendarColors : gmap string string) (dateStr : string)
    (calendarEvents : list CalendarEvent) (appliedColor : option string) : option string :=
  match calendarEvents with
  | [] => appliedColor
  | event :: rest =>
      if eventMatches calendarColors dateStr event
      then js_get calendarColors (to_key (calendarTitle event))
      else scanEvents calendarColors dateStr rest appliedColor
  end.

(** Lines 49-60 of content.js: the value of [appliedColor] after the
    loop. *)
Definition resolveColor `{HostPlatform} (dayColors calendarColors : gmap string string)
    (calendarEvents : list CalendarEvent) (dateStr : string) : option string :=
  let dayName := getWeekDayName dateStr in
  let appliedColor := or_null (js_get dayColors dayName) in
  scanEvents calendarColors dateStr calendarEvents appliedColor.

(** The per-cell callback of [applyCustomColors]: the cell afterwards and
    the writes performed, in order. *)
Definition applyToCell `{HostPlatform} (dayColors calendarColors : gmap string string)
    (calendarEvents : list CalendarEvent) (cell : Cell) : Cell * list Mutation :=
  let dateStr := cellDate cell in
  if negb (truthy dateStr) then (cell, [])
  else
    let appliedColor := resolveColor dayColors calendarColors calendarEvents dateStr in
    if truthy_opt appliedColor then
      if negb (truthy_opt (customColored cell)) then
        let bg := default "" appliedColor in
        let op := if detectDarkMode then "0.7" else "0.9" in
        ({| data_datekey := data_datekey cell; data_date := data_date cell;
            customColored := Some "true"; backgroundColor := bg; opacity := op |},
         [SetMarker "true"; SetBackgroundColor bg; SetOpacity op])
      else (cell, [])
    else if truthy_opt (customColored cell) then
      ({| data_datekey := data_datekey cell; data_date := data_date cell;
          customColored := None; backgroundColor := ""; opacity := "" |},
       [SetBackgroundColor ""; SetOpacity ""; DeleteMarker])
    else (cell, []).

(** [dayCells.forEach(...)]: the cells afterwards and all writes of the
    pass, in order. *)
Fixpoint forEachCell `{HostPlatform} (dayColors calendarColors : gmap string string)
    (calendarEvents : list CalendarEvent) (dayCells : list Cell) : list Cell * list Mutation :=
  match dayCells with
  | [] => ([], [])
  | cell :: rest =>
      let '(cell', ws) := applyToCell dayColors calendarColors calendarEvents cell in
      let '(rest', ws') := forEachCell dayColors calendarColors calendarEvents rest in
      (cell' :: rest', ws ++ ws')
  end.

(** [applyCustomColors()], as the callback of [storage.sync.get] run on
    the stored document [result] and the selected day cells. *)
Definition applyCustomColors `{HostPlatform} (result : SettingsDocument)
    (dayCells : list Cell) : list Cell * list Mutation :=
  let dayColors := default ∅ (doc_dayColors result) in
  let calendarColors := default ∅ (doc_calendarColors result) in
  let calendarEvents := default [] (doc_calendarEvents result) in
  forEachCell dayColors calendarColors calendarEvents dayCells.

(* ===================================================================== *)
(** * Reference statements of colour resolution                           *)
(* ===================================================================== *)

(** Colour resolution as the specification words it: the calendar colour
    of the first event on the date whose calendar title has an entry in
    [calendarColors], else the weekday's entry in [dayColors], else none. *)
Definition resolve_spec `{HostPlatform} (dayColors calendarColors : gmap string string)
    (calendarEvents : list CalendarEvent) (dateStr : string) : option string :=
  match
    List.find (fun event =>
      String.eqb (formatICSDate (start event)) dateStr
      && bool_decide (is_Some (calendarColors !! to_key (calendarTitle event))))
      calendarEvents
  with
  | Some event => calendarColors !! to_key (calendarTitle event)
  | None => dayColors !! getWeekDayName dateStr
  end.

(** Positional value of a string of decimal digits (0 on a character that
    is not a digit). *)
Definition decimal_value (s : string) : Z :=
  fold_left (fun acc c => 10 * acc + default 0 (digit_of c)) (String.list_ascii_of_string s) 0.

Definition all_digits (s : string) : bool :=
  forallb (fun c => bool_decide (is_Some (digit_of c))) (String.list_ascii_of_string s).

(** The ICS date decoder as the specification words it: empty for an
    absent or short input, else the three fields at offsets 0-3, 4-5 and
    6-7 of the first eight characters, as unpadded decimals. *)
Definition decodeICS_spec (icsDate : option string) : string :=
  match icsDate with
  | None => ""
  | Some s =>
      if (String.length s <? 8)%nat then ""
      else
        let d := js_substring 0 8 s in
        decimal (decimal_value (js_substring 0 4 d)) +:+ "-"
        +:+ decimal (decimal_value (js_substring 4 6 d)) +:+ "-"
        +:+ decimal (decimal_value (js_substring 6 8 d))
  end.

(** An ICS date value as the data model has it: when it is present and at
    least eight characters long, the first eight are decimal digits. *)
Definition ics_date_shape (icsDate : option string) : bool :=
  match icsDate with
  | None => true
  | Some s => (String.length s <? 8)%nat || all_digits (js_substring 0 8 s)
  end.

(* ===================================================================== *)
(** * Hand-built ICS documents                                            *)
(* ===================================================================== *)

Definition eol_LF : string := String LF EmptyString.
Definition eol_CRLF : string := String CR (String LF EmptyString).

(** [lines.join(eol)]. *)
Fixpoint join_lines (eol : string) (lines : list string) : string :=
  match lines with
  | [] => ""
  | [l] => l
  | l :: rest => l +:+ eol +:+ join_lines eol rest
  end.

(** The character [x] does not occur in [s]. *)
Fixpoint no_char (x : ascii) (s : string) : bool :=
  match s with
  | EmptyString => true
  | String c rest => negb (char_eqb c x) && no_char x rest
  end.

(** A text that stays one line when a line terminator is put after it: it
    holds no LF and does not end in CR. *)
Fixpoint line_text (s : string) : bool :=
  match s with
  | EmptyString => true
  | String c rest =>
      negb (char_eqb c LF)
      && negb (char_eqb c CR && match rest with EmptyString => true | _ => false end)
      && line_text rest
  end.

(** The [value] the parser's callback computes for a line. *)
Definition line_value (line : string) : option string :=
  js_split_limit colon 2 line !! 1%nat.

(** The start, end and summary texts of one hand-built event. *)
Record EventFields : Type := mkFields {
  f_start : string;
  f_end : string;
  f_summary : string
}.

(** The three texts each stay on one line. *)
Definition one_line_fields (f : EventFields) : bool :=
  line_text (f_start f) && line_text (f_end f) && line_text (f_summary f).

(** None of the three texts holds a colon. *)
Definition colon_free_fields (f : EventFields) : bool :=
  no_char colon (f_start f) && no_char colon (f_end f) && no_char colon (f_summary f).

Definition title_line (t : string) : string := "X-WR-CALNAME:" +:+ t.
Definition dtstart_line (f : EventFields) : string := "DTSTART;VALUE=DATE:" +:+ f_start f.
Definition dtend_line (f : EventFields) : string := "DTEND;VALUE=DATE:" +:+ f_end f.
Definition summary_line (f : EventFields) : string := "SUMMARY:" +:+ f_summary f.

(** The three property lines of an event, in one of their orders. *)
Definition field_lines (f : EventFields) : list string :=
  [dtstart_line f; dtend_line f; summary_line f].

(** A VEVENT block around the property lines [body]. *)
Definition vevent_lines (body : list string) : list string :=
  "BEGIN:VEVENT" :: body ++ ["END:VEVENT"].

(** The lines of a document: the calendar name, then the blocks. *)
Definition ics_lines (t : string) (bodies : list (list string)) : list string :=
  title_line t :: flat_map vevent_lines bodies.

(** The text of a document: its lines joined by [eol], with or without a
    terminator after the last line. *)
Definition ics_text (eol : string) (trailing : bool) (lines : list string) : string :=
  join_lines eol (lines ++ (if trailing then [""] else [])).

(** The event of a block in a calendar titled [T]: its start, end and
    name are the values of the block's three lines. *)
Definition event_from (T : option string) (f : EventFields) : CalendarEvent :=
  {| start := line_value (dtstart_line f); end_ := line_value (dtend_line f);
     name := line_value (summary_line f); calendarTitle := T |}.

(** The event whose start, end and name are the three texts themselves. *)
Definition event_of (t : string) (f : EventFields) : CalendarEvent :=
  {| start := Some (f_start f); end_ := Some (f_end f); name := Some (f_summary f);
     calendarTitle := Some t |}.

(* ===================================================================== *)
(** * Further parts of the two scripts                                    *)
(* ===================================================================== *)

(** The [key] the parser's callback computes for a line. *)
Definition line_key (line : string) : option string :=
  js_split_limit colon 2 line !! 0%nat.

(** The first test of the callback: the line sets the title. *)
Definition is_title_line (line : string) : bool :=
  strict_eq (line_key line) "X-WR-CALNAME".

(** 1 when a block is open, 0 otherwise. *)
Definition open_count (st : ParseState) : nat :=
  match currentEvent st with
  | Some _ => 1%nat
  | None => 0%nat
  end.

(** Number of lines equal to [s]. *)
Definition count_line (s : string) (lines : list string) : nat :=
  length (List.filter (String.eqb s) lines).

(** [displayCalendarSettings]: the [data-index] attributes of the remove
    buttons its template renders, one for each calendar, in document
    order; no button when the list is empty.  The template writes the
    titles into the markup as they are: elements that a title's own
    markup adds or hides are not part of this list. *)
Definition removeButtons (l : list Calendar) : list string :=
  imap (fun index _ => number_toString (Num (Z.of_nat index))) l.

(** The click listener of a remove button whose [data-index] attribute is
    [dataIndex]. *)
Definition clickRemove (dataIndex : string) (p : Popup) : Popup :=
  removeCalendar (parseInt10 dataIndex) p.

(** The restore of the working list in the [DOMContentLoaded] handler:
    each stored entry becomes a calendar with that title and those
    events. *)
Definition restoreCalendars (result : SettingsDocument) : list Calendar :=
  map (fun cal => {| title := title cal; events := events cal |})
    (default [] (doc_loadedCalendars result)).

(** The popup just opened on the store [store]. *)
Definition openPopup (store : SettingsDocument) : Popup :=
  {| loadedCalendars := restoreCalendars store; storage := store; setCalls := [] |}.

(** The persisted list mirrors the working list (an absent key reads as
    the empty list). *)
Definition mirrored (p : Popup) : Prop :=
  default [] (doc_loadedCalendars (storage p)) = loadedCalendars p.

(** The day-key that holds a date in the bit layout [keyToDate] reads:
    year offset from bit 9, month from bit 5, day from bit 0. *)
Definition packDateKey (y m d : Z) : Z := (y - 1970) * 512 + m * 32 + d.

(** The character of a decimal digit. *)
Definition digit_char (n : Z) : ascii := ascii_of_nat (48 + Z.to_nat n).

Definition pad2 (n : Z) : string :=
  String (digit_char (n / 10)) (String (digit_char (n mod 10)) EmptyString).

Definition pad4 (n : Z) : string :=
  String (digit_char (n / 1000)) (String (digit_char (n / 100 mod 10)) (pad2 (n mod 100))).

(** The ICS date [YYYYMMDD] of a date, zero-padded. *)
Definition icsDate_of (y m d : Z) : string := pad4 y +:+ pad2 m +:+ pad2 d.

(** The canonical date string of a date, unpadded. *)
Definition canonicalDate (y m d : Z) : string :=
  decimal y +:+ "-" +:+ decimal m +:+ "-" +:+ decimal d.

(** An event whose start is missing or shorter than eight characters. *)
Definition unusable_start (event : CalendarEvent) : bool :=
  match start event with
  | None => true
  | Some s => (String.length s <? 8)%nat
  end.

(** The opacity the annotator writes under the current theme. *)
Definition themeOpacity `{HostPlatform} : string :=
  if detectDarkMode then "0.7" else "0.9".

(** The cell a pass leaves behind when it colours it. *)
Definition coloredCell `{HostPlatform} (color : string) (cell : Cell) : Cell :=
  {| data_datekey := data_datekey cell; data_date := data_date cell;
     customColored := Some "true"; backgroundColor := color; opacity := themeOpacity |}.

(** The events that can take part in colour resolution: those whose
    calendar title reads a truthy value from [calendarColors]. *)
Definition enabledEvents (calendarColors : gmap string string)
    (calendarEvents : list CalendarEvent) : list CalendarEvent :=
  List.filter (fun event => truthy_opt (js_get calendarColors (to_key (calendarTitle event))))
    calendarEvents.

(* ===================================================================== *)
(** * Example data                                                        *)
(* ===================================================================== *)

Definition example_fields : list EventFields :=
  [ {| f_start := "20240115"; f_end := "20240116"; f_summary := "Lunch" |};
    {| f_start := "20240201"; f_end := "20240202"; f_summary := "Review" |} ].

(** Two blocks; the second lists its lines in reverse order. *)
Definition example_bodies : list (list string) :=
  [ [ "DTSTART;VALUE=DATE:20240115"; "DTEND;VALUE=DATE:20240116"; "SUMMARY:Lunch" ];
    [ "SUMMARY:Review"; "DTEND;VALUE=DATE:20240202"; "DTSTART;VALUE=DATE:20240201" ] ].

(** A document whose last block is never closed. *)
Definition example_closed_lines : list string :=
  ["X-WR-CALNAME:Work"; "BEGIN:VEVENT"; "DTSTART;VALUE=DATE:20240115"; "END:VEVENT"].
Definition example_open_lines : list string := ["SUMMARY:x"; ""].
Definition example_unterminated : string :=
  join_lines eol_LF (example_closed_lines ++ "BEGIN:VEVENT" :: example_open_lines).

(** A calendar with one event, and the popup after loading it into an
    empty store and saving the settings. *)
Definition example_event : CalendarEvent :=
  {| start := Some "20240115"; end_ := Some "20240116"; name := Some "Lunch";
     calendarTitle := Some "Work" |}.
Definition example_calendar : Calendar :=
  {| title := Some "Work"; events := [example_event] |}.
Definition emptyPopup : Popup :=
  {| loadedCalendars := []; storage := emptyDoc; setCalls := [] |}.
Definition example_popup : Popup :=
  submitSettings ∅ (<["Work" := "green"]> ∅) (loadCalendar example_calendar emptyPopup).

(** Two events on 15 January 2024 from two calendars. *)
Definition example_work_event : CalendarEvent :=
  {| start := Some "20240115"; end_ := None; name := None; calendarTitle := Some "Work" |}.
Definition example_home_event : CalendarEvent :=
  {| start := Some "20240115"; end_ := None; name := None; calendarTitle := Some "Home" |}.

(** An event on 15 January 2024 of a calendar titled [constructor]. *)
Definition example_constructor_event : CalendarEvent :=
  {| start := Some "20240115"; end_ := None; name := None;
     calendarTitle := Some "constructor" |}.

(** The cell a pass leaves behind when it reverts it. *)
Definition revertedCell (cell : Cell) : Cell :=
  {| data_datekey := data_datekey cell; data_date := data_date cell;
     customColored := None; backgroundColor := ""; opacity := "" |}.

(** A coloured cell for 15 January 2024 (day-key 27695). *)
Definition example_cell : Cell :=
  {| data_datekey := Some "27695"; data_date := None;
     customColored := Some "true"; backgroundColor := "green"; opacity := "0.9" |}.

(** A document with no title line, and one whose title line is repeated
    after its block. *)
Definition example_untitled : string :=
  join_lines eol_LF ["BEGIN:VEVENT"; "SUMMARY:x"; "END:VEVENT"].
Definition example_retitled_pre : list string :=
  ["X-WR-CALNAME:First"; "BEGIN:VEVENT"; "END:VEVENT"].
Definition example_retitled : string :=
  join_lines eol_LF (example_retitled_pre ++ "X-WR-CALNAME:Second" :: [""]).

(** Lines that lie outside any block. *)
Definition example_stray_lines : list string :=
  ["SUMMARY:x"; "END:VEVENT"; "DTSTART;VALUE=DATE:20240115"; "VERSION:2.0"].

(** A cell for 15 January 2024 that has not been coloured. *)
Definition example_plain_cell : Cell :=
  {| data_datekey := Some "27695"; data_date := None;
     customColored := None; backgroundColor := ""; opacity := "" |}.

Definition example_blue_mondays : gmap string string := <["Monday" := "blue"]> ∅.
Definition example_red_mondays : gmap string string := <["Monday" := "red"]> ∅.
Definition example_green_work : gmap string string := <["Work" := "green"]> ∅.

(* ===================================================================== *)
(** * A host for the examples                                             *)
(* ===================================================================== *)

(** Days since 1970-01-01 of a proleptic Gregorian date. *)
Definition days_from_civil (y m d : Z) : Z :=
  let y' := if m <=? 2 then y - 1 else y in
  let era := y' / 400 in
  let yoe := y' - era * 400 in
  let doy := (153 * (if 2 <? m then m - 3 else m + 9) + 2) / 5 + d - 1 in
  let doe := yoe * 365 + yoe / 4 - yoe / 100 + doy in
  era * 146097 + doe - 719468.

Definition weekday_names : list string :=
  ["Sunday"; "Monday"; "Tuesday"; "Wednesday"; "Thursday"; "Friday"; "Saturday"].

(** Weekday name of a ["Y-M-D"] string; ["Invalid Date"] otherwise. *)
Definition weekday_of_date (dateStr : string) : string :=
  match map parseInt10 (js_split "-"%char dateStr) with
  | [Num y; Num m; Num d] =>
      if (1 <=? m) && (m <=? 12) && (1 <=? d) && (d <=? 31)
      then default "Invalid Date"
             (weekday_names !! Z.to_nat ((days_from_civil y m d + 4) mod 7))
      else "Invalid Date"
  | _ => "Invalid Date"
  end.

Definition lightHost : HostPlatform :=
  {| getWeekDayName := weekday_of_date; detectDarkMode := false |}.

Example keyToDate_ex : keyToDate (Num 27695) = "2024-1-15".
Proof. vm_compute. reflexivity. Qed.
Example formatICSDate_ex : formatICSDate (Some "20240115") = "2024-1-15".
Proof. vm_compute. reflexivity. Qed.
Example split_ex : js_split_limit colon 2 "SUMMARY:a:b" = ["SUMMARY"; "a"].
Proof. vm_compute. reflexivity. Qed.
Example lines_ex : split_lines ("a" +:+ String CR (String LF "b") +:+ String LF "") = ["a"; "b"; ""].
Proof. vm_compute. reflexivity. Qed.
Example weekday_ex : weekday_of_date "2024-1-15" = "Monday".
Proof. vm_compute. reflexivity. Qed.
Example weekday_ex2 : weekday_of_date "1970-1-1" = "Thursday".
Proof. vm_compute. reflexivity. Qed.
Example parse_ex :
  parseICS newCalendar
    ("X-WR-CALNAME:Work" +:+ String LF "BEGIN:VEVENT" +:+ String LF
     "DTSTART;VALUE=DATE:20240115" +:+ String LF "SUMMARY:Lunch: Bob" +:+ String LF "END:VEVENT")
  = {| title := Some "Work";
       events := [ {| start := Some "20240115"; end_ := None; name := Some "Lunch";
                      calendarTitle := Some "Work" |} ] |}.
Proof. vm_compute. reflexivity. Qed.

(* ===================================================================== *)
(** * The date codec                                                      *)
(* ===================================================================== *)

Section DateCodec.

Lemma toInt32_mod (z : Z) : toInt32 (Num z) mod 2 ^ 32 = z mod 2 ^ 32.
Proof.
  unfold toInt32.
  rewrite Zminus_mod_idemp_l.
  f_equal. lia.
Qed.

(** A bit field that lies within the low 32 bits depends only on the value
    modulo 2^32. *)
Lemma field_low (a b s n : Z) :
  0 <= s -> 0 <= n -> s + n <= 32 ->
  a mod 2 ^ 32 = b mod 2 ^ 32 ->
  Z.land (Z.shiftr a s) (Z.ones n) = Z.land (Z.shiftr b s) (Z.ones n).
Proof.
  intros Hs Hn Hsn Hab.
  apply Z.bits_inj'. intros i Hi.
  rewrite !Z.land_spec, !Z.shiftr_spec by lia.
  destruct (Z.ltb_spec i n) as [Hlt | Hge].
  - f_equal.
    rewrite <- (Z.mod_pow2_bits_low a 32 (i + s)) by lia.
    rewrite <- (Z.mod_pow2_bits_low b 32 (i + s)) by lia.
    now rewrite Hab.
  - rewrite Z.ones_spec_high by lia.
    now rewrite !andb_false_r.
Qed.

Lemma toInt32_small (z : Z) : - 2 ^ 31 <= z < 2 ^ 31 -> toInt32 (Num z) = z.
Proof.
  intros Hz. unfold toInt32.
  rewrite Z.mod_small; lia.
Qed.

Lemma ones_small (n : Z) : 0 <= n < 32 -> - 2 ^ 31 <= Z.ones n < 2 ^ 31.
Proof.
  intros Hn. rewrite Z.ones_equiv.
  assert (0 < 2 ^ n) by (apply Z.pow_pos_nonneg; lia).
  assert (2 ^ n <= 2 ^ 31) by (apply Z.pow_le_mono_r; lia).
  lia.
Qed.

(** [(x >> s) & mask] computed by the script on the 32-bit conversion of
    [x] is the same field of the integer [x] itself. *)
Lemma js_field (k s n : Z) :
  0 <= s -> 0 <= n < 32 -> s + n <= 32 ->
  js_and (js_shr (Num k) s) (Num (Z.ones n)) = Num (Z.land (Z.shiftr k s) (Z.ones n)).
Proof.
  intros Hs Hn Hsn.
  unfold js_and, js_shr. f_equal.
  rewrite (toInt32_small (Z.ones n)) by (apply ones_small; lia).
  set (x := Z.shiftr (toInt32 (Num k)) s).
  rewrite <- (Z.shiftr_0_r (toInt32 (Num x))).
  rewrite (field_low (toInt32 (Num x)) x 0 n) by (try lia; apply toInt32_mod).
  rewrite Z.shiftr_0_r. subst x.
  apply field_low; try lia. apply toInt32_mod.
Qed.

Lemma js_field0 (k n : Z) :
  0 <= n < 32 ->
  js_and (Num k) (Num (Z.ones n)) = Num (Z.land k (Z.ones n)).
Proof.
  intros Hn. unfold js_and. f_equal.
  rewrite (toInt32_small (Z.ones n)) by (apply ones_small; lia).
  pose proof (field_low (toInt32 (Num k)) k 0 n) as H.
  rewrite !Z.shiftr_0_r in H.
  apply H; try lia. apply toInt32_mod.
Qed.

(** C5. For every integer day-key [k], [keyToDate] yields the unpadded
    decimal renderings of [1970 + ((k >> 9) & 0xFF)], [(k >> 5) & 0xF] and
    [k & 0x1F], joined by dashes; the fields are those of [k] itself,
    whatever its size. *)
Theorem keyToDate_fields (k : Z) :
  keyToDate (Num k)
  = decimal (1970 + Z.land (Z.shiftr k 9) 255) +:+ "-"
    +:+ decimal (Z.land (Z.shiftr k 5) 15) +:+ "-"
    +:+ decimal (Z.land k 31).
Proof.
  unfold keyToDate.
  change 255 with (Z.ones 8). change 15 with (Z.ones 4). change 31 with (Z.ones 5).
  rewrite !js_field by lia.
  rewrite js_field0 by lia.
  reflexivity.
Qed.

Lemma digit_not_white (c : ascii) (d : Z) : digit_of c = Some d -> is_white c = false.
Proof.
  unfold digit_of, is_white. intros H.
  destruct (48 <=? nat_of_ascii c)%nat eqn:E1; [| discriminate].
  destruct (nat_of_ascii c <=? 57)%nat eqn:E2; [| discriminate].
  apply Nat.leb_le in E1. apply Nat.leb_le in E2.
  assert ((nat_of_ascii c <=? 13)%nat = false) as -> by (apply Nat.leb_gt; lia).
  assert ((nat_of_ascii c =? 32)%nat = false) as -> by (apply Nat.eqb_neq; lia).
  assert ((nat_of_ascii c =? 160)%nat = false) as -> by (apply Nat.eqb_neq; lia).
  now rewrite andb_false_r.
Qed.

Lemma digit_not_sign (c : ascii) (d : Z) :
  digit_of c = Some d -> char_eqb c "-"%char = false /\ char_eqb c "+"%char = false.
Proof.
  intros H. unfold char_eqb.
  split; apply Ascii.eqb_neq; intros ->; vm_compute in H; discriminate.
Qed.

Lemma read_digits_all (s : string) (a : Z) :
  all_digits s = true ->
  read_digits (Some a) s
  = Some (fold_left (fun acc c => 10 * acc + default 0 (digit_of c))
            (String.list_ascii_of_string s) a).
Proof.
  revert a. induction s as [| c s IH]; intros a Hs; [reflexivity |].
  unfold all_digits in Hs. simpl in Hs.
  apply andb_true_iff in Hs as [Hc Hs].
  apply bool_decide_eq_true in Hc as [d Hd].
  simpl. rewrite Hd. simpl. now apply IH.
Qed.

(** On a non-empty string of digits [parseInt] returns its positional
    value. *)
Lemma parseInt10_digits (c : ascii) (s : string) :
  all_digits (String c s) = true ->
  parseInt10 (String c s) = Num (decimal_value (String c s)).
Proof.
  intros Hs. pose proof Hs as Hs'.
  unfold all_digits in Hs'. simpl in Hs'.
  apply andb_true_iff in Hs' as [Hc Hr].
  apply bool_decide_eq_true in Hc as [d Hd].
  unfold parseInt10. simpl skip_white.
  rewrite (digit_not_white c d Hd).
  destruct (digit_not_sign c d Hd) as [-> ->].
  simpl read_digits. rewrite Hd. simpl default.
  rewrite read_digits_all by exact Hr.
  unfold decimal_value. simpl. rewrite Hd. reflexivity.
Qed.

(** C6. On an absent input and on a string shorter than eight characters
    [formatICSDate] returns the empty string; on a longer string whose
    first eight characters are digits it returns the decimal values of the
    characters at offsets 0-3, 4-5 and 6-7 of those eight characters,
    unpadded and joined by dashes. *)
Theorem formatICSDate_decodes (icsDate : option string) :
  ics_date_shape icsDate = true ->
  formatICSDate icsDate = decodeICS_spec icsDate.
Proof.
  destruct icsDate as [s |]; [| reflexivity].
  unfold ics_date_shape, formatICSDate, decodeICS_spec.
  destruct (String.length s <? 8)%nat eqn:Hlen.
  { intros _. now rewrite orb_true_r. }
  simpl orb. intros Hd.
  destruct s as [| c0 [| c1 [| c2 [| c3 [| c4 [| c5 [| c6 [| c7 rest]]]]]]]];
    try discriminate Hlen.
  cbn [truthy negb orb].
  unfold js_substring in *. cbn [Nat.sub String.substring] in *.
  replace (String.substring 0 0 rest) with EmptyString in * by (destruct rest; reflexivity).
  unfold all_digits in Hd. cbn [String.list_ascii_of_string forallb] in Hd.
  repeat (apply andb_true_iff in Hd as [? Hd]).
  rewrite !parseInt10_digits
    by (unfold all_digits; cbn [String.list_ascii_of_string forallb];
        repeat (apply andb_true_iff; split); assumption || reflexivity).
  reflexivity.
Qed.

(** Only the first eight characters of the argument are read. *)
Lemma formatICSDate_prefix (s : string) :
  (8 <= String.length s)%nat ->
  formatICSDate (Some s) = formatICSDate (Some (js_substring 0 8 s)).
Proof.
  intros Hlen.
  destruct s as [| c0 [| c1 [| c2 [| c3 [| c4 [| c5 [| c6 [| c7 rest]]]]]]]];
    simpl in Hlen; try lia.
  unfold formatICSDate, js_substring. cbn [Nat.sub String.substring truthy negb orb].
  replace (String.substring 0 0 rest) with EmptyString by (destruct rest; reflexivity).
  reflexivity.
Qed.

Lemma formatICSDate_decodes_witness :
  ics_date_shape (Some "20240115T090000") = true
  /\ formatICSDate (Some "20240115T090000") = decodeICS_spec (Some "20240115T090000").
Proof.
  split; [reflexivity | apply formatICSDate_decodes; reflexivity].
Defined.

End DateCodec.

(* ===================================================================== *)
(** * The ICS parser                                                      *)
(* ===================================================================== *)

Section Parser.

Lemma js_split_nonempty (sep : ascii) (s : string) : js_split sep s <> [].
Proof.
  destruct s as [| c s]; simpl; [discriminate |].
  destruct (char_eqb c sep); [discriminate |].
  destruct (js_split sep s); discriminate.
Qed.

Lemma js_split_no_char (sep : ascii) (s : string) :
  no_char sep s = true -> js_split sep s = [s].
Proof.
  induction s as [| c s IH]; intros H; [reflexivity |].
  simpl in H. apply andb_true_iff in H as [Hc Hs].
  simpl. apply negb_true_iff in Hc. rewrite Hc, (IH Hs). reflexivity.
Qed.

(** The first separator after a separator-free prefix ends the first
    piece. *)
Lemma js_split_app (sep : ascii) (k v : string) :
  no_char sep k = true ->
  js_split sep (k +:+ String sep v) = k :: js_split sep v.
Proof.
  induction k as [| c k IH]; intros H; simpl.
  - unfold char_eqb. now rewrite Ascii.eqb_refl.
  - simpl in H. apply andb_true_iff in H as [Hc Hk].
    apply negb_true_iff in Hc. rewrite Hc, (IH Hk). reflexivity.
Qed.

(** Key and value of a property line whose value holds no colon. *)
Lemma split_property (k v : string) :
  no_char colon k = true -> no_char colon v = true ->
  js_split_limit colon 2 (k +:+ String colon v) = [k; v].
Proof.
  intros Hk Hv. unfold js_split_limit.
  rewrite js_split_app by exact Hk.
  rewrite js_split_no_char by exact Hv. reflexivity.
Qed.

(** Key and value of a property line in general: the value stops at the
    second colon. *)
Lemma split_property_general (k v : string) :
  no_char colon k = true ->
  exists v1, js_split colon v = v1 :: tail (js_split colon v)
             /\ js_split_limit colon 2 (k +:+ String colon v) = [k; v1].
Proof.
  intros Hk. unfold js_split_limit.
  rewrite js_split_app by exact Hk.
  destruct (js_split colon v) as [| v1 vs] eqn:E.
  - now apply js_split_nonempty in E.
  - exists v1. split; reflexivity.
Qed.

Lemma split_lines_nonempty (s : string) : split_lines s <> [].
Proof.
  induction s as [| c s IH]; simpl; [discriminate |].
  destruct (char_eqb c LF); [discriminate |].
  destruct (char_eqb c CR && starts_with_LF s); [exact IH |].
  destruct (split_lines s); discriminate.
Qed.

Lemma split_lines_line (l : string) : line_text l = true -> split_lines l = [l].
Proof.
  induction l as [| c l IH]; intros H; [reflexivity |].
  simpl in H. apply andb_true_iff in H as [H Hl].
  apply andb_true_iff in H as [Hlf Hcr].
  apply negb_true_iff in Hlf. apply negb_true_iff in Hcr.
  simpl. rewrite Hlf.
  assert (char_eqb c CR && starts_with_LF l = false) as ->.
  { destruct (char_eqb c CR); [| reflexivity].
    destruct l as [| c' l]; [discriminate Hcr |].
    simpl in Hl. simpl.
    apply andb_true_iff in Hl as [Hl _]. apply andb_true_iff in Hl as [Hl _].
    now apply negb_true_iff in Hl. }
  rewrite (IH Hl). reflexivity.
Qed.

(** A line terminator after a one-line text ends that line. *)
Lemma split_lines_app (eol l rest : string) :
  eol = eol_LF \/ eol = eol_CRLF ->
  line_text l = true ->
  split_lines (l +:+ eol +:+ rest) = l :: split_lines rest.
Proof.
  intros Heol. induction l as [| c l IH]; intros H.
  - destruct Heol as [-> | ->]; reflexivity.
  - simpl in H. apply andb_true_iff in H as [H Hl].
    apply andb_true_iff in H as [Hlf Hcr].
    apply negb_true_iff in Hlf. apply negb_true_iff in Hcr.
    simpl. rewrite Hlf.
    assert (char_eqb c CR && starts_with_LF (l +:+ eol +:+ rest) = false) as ->.
    { destruct (char_eqb c CR); [| reflexivity].
      destruct l as [| c' l]; [discriminate Hcr |].
      simpl in Hl. simpl.
      apply andb_true_iff in Hl as [Hl _]. apply andb_true_iff in Hl as [Hl _].
      now apply negb_true_iff in Hl. }
    rewrite (IH Hl). reflexivity.
Qed.

(** Splitting the joined lines gives the lines back. *)
Lemma split_join_lines (eol : string) (lines : list string) :
  eol = eol_LF \/ eol = eol_CRLF ->
  lines <> [] ->
  Forall (fun l => line_text l = true) lines ->
  split_lines (join_lines eol lines) = lines.
Proof.
  intros Heol Hne Hall. induction Hall as [| l ls Hl Hls IH]; [congruence |].
  destruct ls as [| l' ls].
  - simpl. now apply split_lines_line.
  - change (join_lines eol (l :: l' :: ls))
      with (l +:+ eol +:+ join_lines eol (l' :: ls)).
    rewrite split_lines_app by assumption.
    f_equal. apply IH. discriminate.
Qed.

(** ** One line at a time *)

(** The key of a property line is the text before its first colon. *)
Lemma split_key (k v : string) :
  no_char colon k = true ->
  js_split_limit colon 2 (k +:+ String colon v) !! 0%nat = Some k.
Proof.
  intros Hk. destruct (split_property_general k v Hk) as (v1 & _ & ->). reflexivity.
Qed.

(** The value of a property line whose text holds no colon is that text. *)
Lemma line_value_colon_free (k v : string) :
  no_char colon k = true -> no_char colon v = true ->
  line_value (k +:+ String colon v) = Some v.
Proof.
  intros Hk Hv. unfold line_value. now rewrite split_property.
Qed.

Lemma parseLine_title (st : ParseState) (t : string) :
  parseLine st (title_line t)
  = {| ps_title := line_value (title_line t); ps_events := ps_events st;
       currentEvent := currentEvent st |}.
Proof.
  unfold parseLine, line_value, title_line. cbv zeta.
  change ("X-WR-CALNAME:" +:+ t) with ("X-WR-CALNAME" +:+ String colon t).
  rewrite split_key by reflexivity. reflexivity.
Qed.

Lemma parseLine_begin (st : ParseState) :
  parseLine st "BEGIN:VEVENT"
  = {| ps_title := ps_title st; ps_events := ps_events st; currentEvent := Some emptyEvent |}.
Proof. reflexivity. Qed.

Lemma parseLine_end (st : ParseState) (ev : CalendarEvent) :
  currentEvent st = Some ev ->
  parseLine st "END:VEVENT"
  = {| ps_title := ps_title st;
       ps_events := ps_events st ++ [set_calendarTitle (ps_title st) ev];
       currentEvent := None |}.
Proof. intros H. unfold parseLine. cbn. now rewrite H. Qed.

Lemma parseLine_dtstart (st : ParseState) (f : EventFields) :
  parseLine st (dtstart_line f) = assign_field set_start (line_value (dtstart_line f)) st.
Proof.
  unfold parseLine, line_value, dtstart_line. cbv zeta.
  change ("DTSTART;VALUE=DATE:" +:+ f_start f)
    with ("DTSTART;VALUE=DATE" +:+ String colon (f_start f)).
  rewrite split_key by reflexivity. reflexivity.
Qed.

Lemma parseLine_dtend (st : ParseState) (f : EventFields) :
  parseLine st (dtend_line f) = assign_field set_end (line_value (dtend_line f)) st.
Proof.
  unfold parseLine, line_value, dtend_line. cbv zeta.
  change ("DTEND;VALUE=DATE:" +:+ f_end f)
    with ("DTEND;VALUE=DATE" +:+ String colon (f_end f)).
  rewrite split_key by reflexivity. reflexivity.
Qed.

Lemma parseLine_summary (st : ParseState) (f : EventFields) :
  parseLine st (summary_line f) = assign_field set_name (line_value (summary_line f)) st.
Proof.
  unfold parseLine, line_value, summary_line. cbv zeta.
  change ("SUMMARY:" +:+ f_summary f) with ("SUMMARY" +:+ String colon (f_summary f)).
  rewrite split_key by reflexivity. reflexivity.
Qed.

Lemma parseLine_empty (st : ParseState) : parseLine st "" = st.
Proof. reflexivity. Qed.

Lemma assign_field_events f v st : ps_events (assign_field f v st) = ps_events st.
Proof. unfold assign_field. now destruct (currentEvent st). Qed.

(** Only an [END:VEVENT] line can add an event. *)
Lemma parseLine_events (st : ParseState) (line : string) :
  line <> "END:VEVENT" -> ps_events (parseLine st line) = ps_events st.
Proof.
  intros Hne. apply String.eqb_neq in Hne.
  unfold parseLine. rewrite Hne.
  repeat match goal with
         | |- context [if ?b then _ else _] => destruct b
         end; rewrite ?assign_field_events; reflexivity.
Qed.

Lemma parseLines_events (st : ParseState) (lines : list string) :
  Forall (fun l => l <> "END:VEVENT") lines ->
  ps_events (parseLines st lines) = ps_events st.
Proof.
  intros H. revert st. induction H as [| l ls Hl _ IH]; intros st; [reflexivity |].
  unfold parseLines in *. simpl. rewrite IH. now apply parseLine_events.
Qed.

Lemma parseLines_app (st : ParseState) (l1 l2 : list string) :
  parseLines st (l1 ++ l2) = parseLines (parseLines st l1) l2.
Proof. unfold parseLines. apply fold_left_app. Qed.

(** ** Blocks *)

Lemma perm3 {A : Type} (l : list A) (a b c : A) :
  l ≡ₚ [a; b; c] ->
  l = [a; b; c] \/ l = [a; c; b] \/ l = [b; a; c]
  \/ l = [b; c; a] \/ l = [c; a; b] \/ l = [c; b; a].
Proof.
  intros H. pose proof (Permutation_length H) as Hlen.
  destruct l as [| x [| y [| z [| ? ?]]]]; try discriminate Hlen.
  assert (Hx : In x [a; b; c])
    by (eapply Permutation_in; [exact H | left; reflexivity]).
  destruct Hx as [<- | [<- | [<- | []]]].
  - apply Permutation_cons_inv, Permutation_sym, Permutation_length_2_inv in H.
    destruct H as [H | H]; inversion H; subst; auto.
  - assert (H' : b :: [y; z] ≡ₚ b :: [a; c])
      by (etransitivity; [exact H | apply perm_swap]).
    apply Permutation_cons_inv, Permutation_sym, Permutation_length_2_inv in H'.
    destruct H' as [H' | H']; inversion H'; subst; auto 10.
  - assert (H' : c :: [y; z] ≡ₚ c :: [a; b]).
    { etransitivity; [exact H |].
      symmetry. apply (Permutation_cons_append [a; b] c). }
    apply Permutation_cons_inv, Permutation_sym, Permutation_length_2_inv in H'.
    destruct H' as [H' | H']; inversion H'; subst; auto 10.
Qed.

(** A block appends its event, stamped with the title known so far,
    whatever the order of its three property lines. *)
Lemma parse_block (st : ParseState) (body : list string) (f : EventFields) :
  body ≡ₚ field_lines f ->
  parseLines st (vevent_lines body)
  = {| ps_title := ps_title st;
       ps_events := ps_events st ++ [event_from (ps_title st) f];
       currentEvent := None |}.
Proof.
  intros Hperm. apply perm3 in Hperm.
  destruct Hperm as [-> | [-> | [-> | [-> | [-> | ->]]]]];
    unfold vevent_lines, parseLines; cbn [app fold_left];
    rewrite parseLine_begin;
    rewrite ?parseLine_dtstart, ?parseLine_dtend, ?parseLine_summary;
    cbn [assign_field currentEvent ps_title ps_events];
    rewrite ?parseLine_dtstart, ?parseLine_dtend, ?parseLine_summary;
    cbn [assign_field currentEvent ps_title ps_events];
    rewrite ?parseLine_dtstart, ?parseLine_dtend, ?parseLine_summary;
    cbn [assign_field currentEvent ps_title ps_events];
    (erewrite parseLine_end by reflexivity); reflexivity.
Qed.

Lemma parse_blocks (T : option string) (bodies : list (list string))
    (fields : list EventFields) :
  Forall2 (fun body f => body ≡ₚ field_lines f) bodies fields ->
  forall st, ps_title st = T -> currentEvent st = None ->
  parseLines st (flat_map vevent_lines bodies)
  = {| ps_title := T;
       ps_events := ps_events st ++ map (event_from T) fields;
       currentEvent := None |}.
Proof.
  induction 1 as [| body f bodies fields Hperm _ IH]; intros st Ht Hc.
  - cbn. rewrite app_nil_r. destruct st; simpl in *; congruence.
  - cbn [flat_map]. rewrite parseLines_app.
    rewrite (parse_block st body f Hperm).
    rewrite IH by (simpl; congruence).
    cbn [ps_events map]. rewrite <- app_assoc, Ht. reflexivity.
Qed.

(** With colon-free texts the values of the lines are the texts. *)
Lemma event_from_colon_free (t : string) (f : EventFields) :
  colon_free_fields f = true -> event_from (Some t) f = event_of t f.
Proof.
  intros Hf. unfold colon_free_fields in Hf.
  apply andb_true_iff in Hf as [Hf Hn]. apply andb_true_iff in Hf as [Hs He].
  unfold event_from, event_of, dtstart_line, dtend_line, summary_line.
  change ("DTSTART;VALUE=DATE:" +:+ f_start f)
    with ("DTSTART;VALUE=DATE" +:+ String colon (f_start f)).
  change ("DTEND;VALUE=DATE:" +:+ f_end f)
    with ("DTEND;VALUE=DATE" +:+ String colon (f_end f)).
  change ("SUMMARY:" +:+ f_summary f) with ("SUMMARY" +:+ String colon (f_summary f)).
  rewrite !line_value_colon_free by (assumption || reflexivity).
  reflexivity.
Qed.

(** ** Whole documents *)

Lemma property_line_text (k v : string) :
  line_text (k +:+ String colon EmptyString) = true ->
  line_text v = true ->
  line_text (k +:+ String colon v) = true.
Proof.
  intros Hk Hv. induction k as [| c k IH].
  - simpl. exact Hv.
  - simpl in Hk. apply andb_true_iff in Hk as [Hk1 Hk2].
    apply andb_true_iff in Hk1 as [Hlf Hcr].
    simpl. rewrite Hlf, (IH Hk2). simpl.
    destruct (char_eqb c CR); [| reflexivity].
    destruct k; reflexivity.
Qed.

Lemma field_lines_text (f : EventFields) :
  one_line_fields f = true -> Forall (fun l => line_text l = true) (field_lines f).
Proof.
  intros Hf. unfold one_line_fields in Hf.
  apply andb_true_iff in Hf as [Hf Hn]. apply andb_true_iff in Hf as [Hs He].
  unfold field_lines, dtstart_line, dtend_line, summary_line.
  repeat constructor.
  - change ("DTSTART;VALUE=DATE:" +:+ f_start f)
      with ("DTSTART;VALUE=DATE" +:+ String colon (f_start f)).
    now apply property_line_text.
  - change ("DTEND;VALUE=DATE:" +:+ f_end f)
      with ("DTEND;VALUE=DATE" +:+ String colon (f_end f)).
    now apply property_line_text.
  - change ("SUMMARY:" +:+ f_summary f) with ("SUMMARY" +:+ String colon (f_summary f)).
    now apply property_line_text.
Qed.

Lemma ics_lines_text (t : string) (bodies : list (list string)) (fields : list EventFields) :
  line_text t = true ->
  Forall2 (fun body f => body ≡ₚ field_lines f /\ one_line_fields f = true) bodies fields ->
  Forall (fun l => line_text l = true) (ics_lines t bodies).
Proof.
  intros Ht Hb. unfold ics_lines, title_line. constructor.
  - change ("X-WR-CALNAME:" +:+ t) with ("X-WR-CALNAME" +:+ String colon t).
    now apply property_line_text.
  - induction Hb as [| body f bodies fields [Hperm Hf] _ IH]; [constructor |].
    cbn [flat_map]. apply Forall_app. split; [| exact IH].
    unfold vevent_lines. constructor; [reflexivity |].
    apply Forall_app. split; [| repeat constructor].
    eapply Permutation_Forall; [symmetry; exact Hperm |].
    now apply field_lines_text.
Qed.

(** The parse of a hand-built document, whatever its texts hold besides
    line breaks. *)
Lemma parseICS_document (this : Calendar) (eol : string) (trailing : bool)
    (t : string) (bodies : list (list string)) (fields : list EventFields) :
  eol = eol_LF \/ eol = eol_CRLF ->
  line_text t = true ->
  Forall2 (fun body f => body ≡ₚ field_lines f /\ one_line_fields f = true) bodies fields ->
  parseICS this (ics_text eol trailing (ics_lines t bodies))
  = {| title := line_value (title_line t);
       events := map (event_from (line_value (title_line t))) fields |}.
Proof.
  intros Heol Ht Hb.
  unfold parseICS, ics_text.
  rewrite split_join_lines.
  - rewrite parseLines_app. unfold ics_lines.
    change (parseLines ?st (?l :: ?ls)) with (parseLines (parseLine st l) ls).
    rewrite parseLine_title.
    rewrite (parse_blocks (line_value (title_line t)) bodies fields)
      by (reflexivity || (eapply Forall2_impl; [exact Hb | now intros ? ? [? _]])).
    destruct trailing; reflexivity.
  - exact Heol.
  - unfold ics_lines. discriminate.
  - apply Forall_app. split.
    + now apply (ics_lines_text t bodies fields).
    + destruct trailing; repeat constructor.
Qed.

(** C4. A hand-built document, one [X-WR-CALNAME] line then N [VEVENT]
    blocks holding a [DTSTART;VALUE=DATE], a [DTEND;VALUE=DATE] and a
    [SUMMARY] line in any order, with LF or CRLF line ends and with or
    without a final line end, parses to exactly N events, in file order.
    Each event carries the title of the parsed calendar, and its start, end
    and name are the values of the three lines of its own block.  When the
    title and the texts hold no colon, these values are the texts as
    written. *)
Theorem parseICS_round_trip (this : Calendar) (eol : string) (trailing : bool)
    (t : string) (bodies : list (list string)) (fields : list EventFields) :
  eol = eol_LF \/ eol = eol_CRLF ->
  line_text t = true ->
  Forall2 (fun body f => body ≡ₚ field_lines f /\ one_line_fields f = true) bodies fields ->
  let cal := parseICS this (ics_text eol trailing (ics_lines t bodies)) in
  length (events cal) = length bodies
  /\ title cal = line_value (title_line t)
  /\ events cal = map (event_from (title cal)) fields
  /\ (no_char colon t = true ->
      Forall (fun f => colon_free_fields f = true) fields ->
      cal = {| title := Some t; events := map (event_of t) fields |}).
Proof.
  intros Heol Ht Hb cal.
  assert (Hcal : cal = {| title := line_value (title_line t);
                          events := map (event_from (line_value (title_line t))) fields |})
    by (now apply parseICS_document).
  rewrite Hcal. cbn [title events].
  split; [| split; [reflexivity | split; [reflexivity |]]].
  - rewrite length_map. symmetry. eapply Forall2_length. exact Hb.
  - intros Hcolon Hfields.
    unfold title_line.
    change ("X-WR-CALNAME:" +:+ t) with ("X-WR-CALNAME" +:+ String colon t).
    rewrite line_value_colon_free by (assumption || reflexivity).
    f_equal. apply map_ext_in. intros f Hin.
    apply event_from_colon_free.
    rewrite Forall_forall in Hfields. apply Hfields.
    now apply list_elem_of_In.
Qed.

(** C9. When the lines of the input end with a [BEGIN:VEVENT] line that
    no [END:VEVENT] line follows, the events parsed are those of the lines
    before it: the open block is not emitted.  The text
    [BEGIN:VEVENT\nSUMMARY:x\n] yields no event, and [parseICS] returns a
    calendar on every text. *)
Theorem unterminated_event_dropped (this : Calendar) (data : string)
    (pre post : list string) :
  split_lines data = pre ++ "BEGIN:VEVENT" :: post ->
  Forall (fun l => l <> "END:VEVENT") post ->
  events (parseICS this data) = ps_events (parseLines (initialState this) pre)
  /\ events (parseICS this ("BEGIN:VEVENT" +:+ eol_LF +:+ "SUMMARY:x" +:+ eol_LF)) = []
  /\ (forall text, exists cal, parseICS this text = cal).
Proof.
  intros Hsplit Hpost. split; [| split].
  - unfold parseICS. cbn [events].
    rewrite Hsplit, parseLines_app.
    change (parseLines ?st (?l :: ?ls)) with (parseLines (parseLine st l) ls).
    rewrite parseLines_events by exact Hpost.
    rewrite parseLine_begin. reflexivity.
  - reflexivity.
  - intros text. eexists. reflexivity.
Qed.

Lemma unterminated_event_dropped_witness :
  split_lines example_unterminated
  = example_closed_lines ++ "BEGIN:VEVENT" :: example_open_lines
  /\ Forall (fun l => l <> "END:VEVENT") example_open_lines
  /\ events (parseICS newCalendar example_unterminated)
     = ps_events (parseLines (initialState newCalendar) example_closed_lines).
Proof.
  assert (H1 : split_lines example_unterminated
               = example_closed_lines ++ "BEGIN:VEVENT" :: example_open_lines)
    by reflexivity.
  assert (H2 : Forall (fun l => l <> "END:VEVENT") example_open_lines)
    by (repeat constructor; discriminate).
  split; [exact H1 | split; [exact H2 |]].
  exact (proj1 (unterminated_event_dropped newCalendar example_unterminated
                  example_closed_lines example_open_lines H1 H2)).
Defined.

Lemma parseICS_round_trip_witness :
  (eol_CRLF = eol_LF \/ eol_CRLF = eol_CRLF)
  /\ line_text "Work" = true
  /\ Forall2 (fun body f => body ≡ₚ field_lines f /\ one_line_fields f = true)
       example_bodies example_fields
  /\ parseICS newCalendar (ics_text eol_CRLF true (ics_lines "Work" example_bodies))
     = {| title := Some "Work"; events := map (event_of "Work") example_fields |}.
Proof.
  assert (H1 : eol_CRLF = eol_LF \/ eol_CRLF = eol_CRLF) by (right; reflexivity).
  assert (H2 : line_text "Work" = true) by reflexivity.
  assert (H3 : Forall2 (fun body f => body ≡ₚ field_lines f /\ one_line_fields f = true)
                 example_bodies example_fields).
  { constructor; [split; reflexivity |].
    constructor; [| constructor].
    split; [| reflexivity].
    unfold field_lines. cbn.
    etransitivity; [apply perm_swap |].
    etransitivity; [apply perm_skip, perm_swap |].
    etransitivity; [apply perm_swap |].
    reflexivity. }
  split; [exact H1 | split; [exact H2 | split; [exact H3 |]]].
  refine (proj2 (proj2 (proj2
    (parseICS_round_trip newCalendar eol_CRLF true "Work"
       example_bodies example_fields H1 H2 H3))) _ _).
  - reflexivity.
  - repeat constructor.
Defined.

(** C2 (the code at the failing input). The value of a line stops at its
    second colon: a calendar name [Team: A] is stored as [Team] and a
    summary [Lunch: Bob] as [Lunch], not as the whole text after the first
    colon. *)
Theorem value_stops_at_second_colon :
  parseICS newCalendar
    (join_lines eol_LF
       ["X-WR-CALNAME:Team: A"; "BEGIN:VEVENT"; "SUMMARY:Lunch: Bob"; "END:VEVENT"])
  = {| title := Some "Team";
       events := [ {| start := None; end_ := None; name := Some "Lunch";
                      calendarTitle := Some "Team" |} ] |}
  /\ js_split_limit colon 2 "SUMMARY:Lunch: Bob" = ["SUMMARY"; "Lunch"].
Proof. split; reflexivity. Qed.

End Parser.

(* ===================================================================== *)
(** * The working calendar list and the settings store                    *)
(* ===================================================================== *)

Section PopupStore.

Lemma storedCalendars_id (l : list Calendar) : storedCalendars l = l.
Proof.
  unfold storedCalendars. induction l as [| [t es] l IH]; [reflexivity |].
  simpl. now rewrite IH.
Qed.

Lemma gatherEvents_from (l : list Calendar) (acc : list CalendarEvent) :
  fold_left (fun calendarEvents calendar => calendarEvents ++ getEvents calendar) l acc
  = acc ++ concat (map events l).
Proof.
  revert acc. induction l as [| cal l IH]; intros acc; simpl.
  - now rewrite app_nil_r.
  - rewrite IH. now rewrite <- app_assoc.
Qed.

Lemma gatherEvents_concat (l : list Calendar) : gatherEvents l = concat (map events l).
Proof. unfold gatherEvents. apply gatherEvents_from. Qed.

(** Saving the settings establishes the derived-cache invariant. *)
Lemma submitSettings_cache (dayColors calendarColors : gmap string string) (p : Popup) :
  cache_invariant (storage (submitSettings dayColors calendarColors p)).
Proof.
  unfold cache_invariant, submitSettings, storage_sync_set, storage_set. simpl.
  rewrite storedCalendars_id. apply gatherEvents_concat.
Qed.

(** [splice(index, 1)] at an index within the array removes the element
    at that index. *)
Lemma splice_in_range {A : Type} (z : Z) (l : list A) :
  0 <= z < Z.of_nat (length l) ->
  splice (Num z) 1 l = delete (Z.to_nat z) l.
Proof.
  intros Hz. unfold splice, relative_start.
  assert ((z <? 0) = false) as -> by lia.
  rewrite Z.min_l by lia.
  replace (Nat.min 1 (length l - Z.to_nat z)) with 1%nat by lia.
  rewrite delete_take_drop. do 2 f_equal. lia.
Qed.

(** C10. An index that is negative or not below the length of the list
    leaves the popup as it was: same list, same store, no [set] call. *)
Theorem removeCalendar_out_of_range (z : Z) (p : Popup) :
  z < 0 \/ Z.of_nat (length (loadedCalendars p)) <= z ->
  removeCalendar (Num z) p = p.
Proof.
  intros Hz. unfold removeCalendar, js_lt, js_ge.
  destruct Hz as [Hz | Hz].
  - assert ((z <? 0) = true) as -> by lia. reflexivity.
  - assert ((Z.of_nat (length (loadedCalendars p)) <=? z) = true) as -> by lia.
    now rewrite orb_true_r.
Qed.

Lemma removeCalendar_out_of_range_witness :
  (5 < 0 \/ Z.of_nat (length (loadedCalendars example_popup)) <= 5)
  /\ removeCalendar (Num 5) example_popup = example_popup.
Proof.
  assert (H : 5 < 0 \/ Z.of_nat (length (loadedCalendars example_popup)) <= 5)
    by (right; vm_compute; discriminate).
  split; [exact H |].
  exact (removeCalendar_out_of_range 5 example_popup H).
Defined.

(** C1 (as amended). Removing the calendar at an index within the list
    removes that entry from the working list and persists the remaining
    list under [loadedCalendars]; the stored [calendarEvents], [dayColors]
    and [calendarColors] are left as they were, and one [set] call is
    made.  The next save of the settings writes [calendarEvents] afresh,
    after which the derived-cache invariant holds. *)
Theorem removeCalendar_persists_list (z : Z) (p : Popup)
    (dayColors calendarColors : gmap string string) :
  0 <= z < Z.of_nat (length (loadedCalendars p)) ->
  let p' := removeCalendar (Num z) p in
  loadedCalendars p' = delete (Z.to_nat z) (loadedCalendars p)
  /\ doc_loadedCalendars (storage p') = Some (loadedCalendars p')
  /\ doc_calendarEvents (storage p') = doc_calendarEvents (storage p)
  /\ doc_dayColors (storage p') = doc_dayColors (storage p)
  /\ doc_calendarColors (storage p') = doc_calendarColors (storage p)
  /\ length (setCalls p') = S (length (setCalls p))
  /\ cache_invariant (storage (submitSettings dayColors calendarColors p')).
Proof.
  intros Hz p'.
  assert (Hp : p' = storage_sync_set
                      {| doc_dayColors := None; doc_calendarColors := None;
                         doc_calendarEvents := None;
                         doc_loadedCalendars :=
                           Some (delete (Z.to_nat z) (loadedCalendars p)) |}
                      (set_loadedCalendars (delete (Z.to_nat z) (loadedCalendars p)) p)).
  { subst p'. unfold removeCalendar, js_lt, js_ge.
    assert ((z <? 0) = false) as -> by lia.
    assert ((Z.of_nat (length (loadedCalendars p)) <=? z) = false) as -> by lia.
    cbn [orb]. rewrite splice_in_range by exact Hz.
    cbn [set_loadedCalendars loadedCalendars].
    now rewrite storedCalendars_id. }
  split; [now rewrite Hp |].
  split; [now rewrite Hp |].
  split; [now rewrite Hp |].
  split; [now rewrite Hp |].
  split; [now rewrite Hp |].
  split.
  - rewrite Hp. unfold storage_sync_set. cbn [setCalls].
    rewrite length_app. simpl. lia.
  - apply submitSettings_cache.
Qed.

Lemma removeCalendar_persists_list_witness :
  0 <= 0 < Z.of_nat (length (loadedCalendars example_popup))
  /\ loadedCalendars (removeCalendar (Num 0) example_popup) = []
  /\ doc_calendarEvents (storage (removeCalendar (Num 0) example_popup))
     = Some [example_event].
Proof.
  assert (H : 0 <= 0 < Z.of_nat (length (loadedCalendars example_popup)))
    by (vm_compute; split; [discriminate | reflexivity]).
  split; [exact H |].
  pose proof (removeCalendar_persists_list 0 example_popup ∅ ∅ H) as (H1 & _ & H3 & _).
  split; [exact H1 | exact H3].
Defined.

(** C1 (counterexample). With one calendar loaded and saved, the stored
    document satisfies the invariant; after removing that calendar the
    store holds an empty [loadedCalendars] next to the old, non-empty
    [calendarEvents]. *)
Lemma removeCalendar_breaks_cache :
  0 <= 0 < Z.of_nat (length (loadedCalendars example_popup))
  /\ cache_invariant (storage example_popup)
  /\ ~ cache_invariant (storage (removeCalendar (Num 0) example_popup)).
Proof.
  split; [vm_compute; split; [discriminate | reflexivity] |].
  split; [reflexivity |].
  unfold cache_invariant. vm_compute. discriminate.
Qed.

End PopupStore.

(* ===================================================================== *)
(** * Colour resolution and the annotator                                 *)
(* ===================================================================== *)

Section Annotator.

Context `{host : HostPlatform}.

Variables dayColors calendarColors : gmap string string.
Variable calendarEvents : list CalendarEvent.

(** The cell's date does not depend on the marker or on the styles. *)
Lemma cellDate_attrs (c1 c2 : Cell) :
  data_datekey c1 = data_datekey c2 -> data_date c1 = data_date c2 ->
  cellDate c1 = cellDate c2.
Proof. unfold cellDate. now intros -> ->. Qed.

(** Running the per-cell callback on its own result writes nothing. *)
Lemma applyToCell_again (cell : Cell) :
  applyToCell dayColors calendarColors calendarEvents
    (fst (applyToCell dayColors calendarColors calendarEvents cell))
  = (fst (applyToCell dayColors calendarColors calendarEvents cell), []).
Proof.
  unfold applyToCell at 2 3.
  destruct (truthy (cellDate cell)) eqn:Hd; cbn [negb].
  2: { cbn [fst]. unfold applyToCell. now rewrite Hd. }
  destruct (truthy_opt (resolveColor dayColors calendarColors calendarEvents (cellDate cell)))
    eqn:Hc.
  - destruct (truthy_opt (customColored cell)) eqn:Hm; cbn [negb fst].
    + unfold applyToCell. now rewrite Hd, Hc, Hm.
    + unfold applyToCell. cbn [customColored].
      match goal with
      | |- context [cellDate ?c] =>
          rewrite (cellDate_attrs c cell) by reflexivity
      end.
      now rewrite Hd, Hc.
  - destruct (truthy_opt (customColored cell)) eqn:Hm; cbn [fst].
    + unfold applyToCell. cbn [customColored].
      match goal with
      | |- context [cellDate ?c] =>
          rewrite (cellDate_attrs c cell) by reflexivity
      end.
      now rewrite Hd, Hc.
    + unfold applyToCell. now rewrite Hd, Hc, Hm.
Qed.

Lemma forEachCell_again (dayCells : list Cell) :
  forEachCell dayColors calendarColors calendarEvents
    (fst (forEachCell dayColors calendarColors calendarEvents dayCells))
  = (fst (forEachCell dayColors calendarColors calendarEvents dayCells), []).
Proof.
  induction dayCells as [| cell rest IH]; [reflexivity |].
  cbn [forEachCell].
  pose proof (applyToCell_again cell) as Hcell.
  destruct (applyToCell dayColors calendarColors calendarEvents cell) as [cell' ws].
  destruct (forEachCell dayColors calendarColors calendarEvents rest) as [rest' ws'].
  cbn [fst] in *. cbn [forEachCell].
  rewrite Hcell, IH. reflexivity.
Qed.

(** The cell at position [i] after a pass is the result of the per-cell
    callback on the cell at position [i] before it. *)
Lemma forEachCell_lookup (dayCells : list Cell) (i : nat) :
  fst (forEachCell dayColors calendarColors calendarEvents dayCells) !! i
  = (fun cell => fst (applyToCell dayColors calendarColors calendarEvents cell))
      <$> (dayCells !! i).
Proof.
  revert i. induction dayCells as [| cell rest IH]; intros i; [reflexivity |].
  cbn [forEachCell].
  destruct (applyToCell dayColors calendarColors calendarEvents cell) as [cell' ws] eqn:Ec.
  destruct (forEachCell dayColors calendarColors calendarEvents rest) as [rest' ws'] eqn:Er.
  destruct i as [| i]; cbn.
  - now rewrite Ec.
  - rewrite <- IH. reflexivity.
Qed.

(** C8. A cell with a date for which the inputs resolve no colour: if it
    carries the marker, the callback clears its background colour and its
    opacity and deletes the marker, by exactly these three writes; if it
    does not carry the marker, the callback writes nothing and leaves the
    cell as it is.  The pass leaves that result at the cell's position. *)
Theorem uncoloured_cell_reverted (dayCells : list Cell) (i : nat) (cell : Cell) :
  dayCells !! i = Some cell ->
  truthy (cellDate cell) = true ->
  resolveColor dayColors calendarColors calendarEvents (cellDate cell) = None ->
  applyToCell dayColors calendarColors calendarEvents cell
  = (if truthy_opt (customColored cell)
     then (revertedCell cell, [SetBackgroundColor ""; SetOpacity ""; DeleteMarker])
     else (cell, []))
  /\ fst (forEachCell dayColors calendarColors calendarEvents dayCells) !! i
     = Some (if truthy_opt (customColored cell) then revertedCell cell else cell).
Proof.
  intros Hi Hd Hc.
  assert (Hcell : applyToCell dayColors calendarColors calendarEvents cell
                  = (if truthy_opt (customColored cell)
                     then (revertedCell cell,
                           [SetBackgroundColor ""; SetOpacity ""; DeleteMarker])
                     else (cell, []))).
  { unfold applyToCell. rewrite Hd, Hc. cbn [negb truthy_opt].
    now destruct (truthy_opt (customColored cell)). }
  split; [exact Hcell |].
  rewrite forEachCell_lookup, Hi. cbn. rewrite Hcell.
  now destruct (truthy_opt (customColored cell)).
Qed.

End Annotator.

(** C7. With the stored inputs and the theme unchanged, a second pass of
    [applyCustomColors] over the cells the first pass left behind performs
    no write at all and leaves every cell as it is. *)
Theorem applyCustomColors_twice `{host : HostPlatform} (result : SettingsDocument)
    (dayCells : list Cell) :
  applyCustomColors result (fst (applyCustomColors result dayCells))
  = (fst (applyCustomColors result dayCells), []).
Proof. unfold applyCustomColors. apply forEachCell_again. Qed.

(** C3 (the code at the failing input). Mondays are blue, the calendar
    [Work] is green, and the only event on Monday 15 January 2024 is of a
    calendar titled [constructor], which has no entry in [calendarColors].
    The specification's wording finds no event with an entry and returns
    the weekday colour; the code reads [calendarColors["constructor"]],
    finds the function every object inherits, and returns it as the
    colour. *)
Theorem resolveColor_inherited_property :
  resolve_spec (H := lightHost) example_blue_mondays example_green_work
    [example_constructor_event] "2024-1-15" = Some "blue"
  /\ resolveColor (H := lightHost) example_blue_mondays example_green_work
       [example_constructor_event] "2024-1-15"
     = Some "function Object() { [native code] }"
  /\ example_green_work !! "constructor" = None.
Proof. repeat split; vm_compute; reflexivity. Qed.

(** The scenarios of the specification: a weekday rule alone colours the
    cell; an event of an enabled calendar overrides it. *)
Lemma resolveColor_scenarios :
  resolveColor (H := lightHost) (<["Monday" := "blue"]> ∅) ∅ [] "2024-1-15" = Some "blue"
  /\ resolveColor (H := lightHost) (<["Monday" := "blue"]> ∅) (<["Work" := "green"]> ∅)
       [example_work_event] "2024-1-15" = Some "green"
  /\ resolveColor (H := lightHost) ∅ ∅ [example_work_event] "2024-1-15" = None.
Proof. repeat split; vm_compute; reflexivity. Qed.

Lemma uncoloured_cell_reverted_witness :
  [example_cell] !! 0%nat = Some example_cell
  /\ truthy (cellDate example_cell) = true
  /\ resolveColor (H := lightHost) ∅ ∅ [] (cellDate example_cell) = None
  /\ applyToCell (H := lightHost) ∅ ∅ [] example_cell
     = (revertedCell example_cell, [SetBackgroundColor ""; SetOpacity ""; DeleteMarker]).
Proof.
  assert (H1 : [example_cell] !! 0%nat = Some example_cell) by reflexivity.
  assert (H2 : truthy (cellDate example_cell) = true) by reflexivity.
  assert (H3 : resolveColor (H := lightHost) ∅ ∅ [] (cellDate example_cell) = None)
    by reflexivity.
  split; [exact H1 | split; [exact H2 | split; [exact H3 |]]].
  exact (proj1 (uncoloured_cell_reverted (host := lightHost) ∅ ∅ []
                  [example_cell] 0%nat example_cell H1 H2 H3)).
Defined.

(* ===================================================================== *)
(** * Further properties of the ICS parser                                *)
(* ===================================================================== *)

Section ParserFurther.

Lemma assign_field_title f v st : ps_title (assign_field f v st) = ps_title st.
Proof. unfold assign_field. now destruct (currentEvent st). Qed.

(** Only a title line changes the title. *)
Lemma parseLine_keeps_title (st : ParseState) (line : string) :
  is_title_line line = false -> ps_title (parseLine st line) = ps_title st.
Proof.
  intros H. unfold is_title_line, line_key in H.
  unfold parseLine. cbv zeta. rewrite H.
  repeat match goal with
         | |- context [if ?b then _ else _] => destruct b
         | |- context [match currentEvent ?s with _ => _ end] => destruct (currentEvent s)
         end; rewrite ?assign_field_title; reflexivity.
Qed.

Lemma parseLines_keeps_title (st : ParseState) (lines : list string) :
  Forall (fun l => is_title_line l = false) lines ->
  ps_title (parseLines st lines) = ps_title st.
Proof.
  intros H. revert st. induction H as [| l ls Hl _ IH]; intros st; [reflexivity |].
  unfold parseLines in *. simpl. rewrite IH. now apply parseLine_keeps_title.
Qed.

(** A title line sets the title to its value and nothing else. *)
Lemma parseLine_sets_title (st : ParseState) (line : string) :
  is_title_line line = true ->
  parseLine st line
  = {| ps_title := line_value line; ps_events := ps_events st;
       currentEvent := currentEvent st |}.
Proof.
  intros H. unfold is_title_line, line_key in H.
  unfold parseLine, line_value. cbv zeta. now rewrite H.
Qed.

(** Without a title line the calendar keeps the title it had: the empty
    string for a calendar just constructed. *)
Theorem parseICS_no_title_line (this : Calendar) (data : string) :
  Forall (fun l => is_title_line l = false) (split_lines data) ->
  title (parseICS this data) = title this.
Proof.
  intros H. unfold parseICS. cbn [title].
  now rewrite parseLines_keeps_title.
Qed.

(** The title of the parsed calendar is the value of the last title
    line. *)
Theorem parseICS_last_title_wins (this : Calendar) (data line : string)
    (pre post : list string) :
  split_lines data = pre ++ line :: post ->
  is_title_line line = true ->
  Forall (fun l => is_title_line l = false) post ->
  title (parseICS this data) = line_value line.
Proof.
  intros Hsplit Hline Hpost. unfold parseICS. cbn [title].
  rewrite Hsplit, parseLines_app.
  change (parseLines ?st (?l :: ?ls)) with (parseLines (parseLine st l) ls).
  rewrite parseLines_keeps_title by exact Hpost.
  now rewrite parseLine_sets_title.
Qed.

(** Outside a block, a line that neither sets the title nor opens a block
    changes nothing: property lines and a stray [END:VEVENT] are
    ignored. *)
Lemma parseLine_outside_block (st : ParseState) (line : string) :
  currentEvent st = None ->
  is_title_line line = false ->
  line <> "BEGIN:VEVENT" ->
  parseLine st line = st.
Proof.
  intros Hc Ht Hb. unfold is_title_line, line_key in Ht.
  apply String.eqb_neq in Hb.
  unfold parseLine, assign_field. cbv zeta. rewrite Ht, Hb, Hc.
  repeat match goal with
         | |- context [if ?b then _ else _] => destruct b
         end; reflexivity.
Qed.

Theorem parseLines_outside_block (st : ParseState) (lines : list string) :
  currentEvent st = None ->
  Forall (fun l => is_title_line l = false /\ l <> "BEGIN:VEVENT") lines ->
  parseLines st lines = st.
Proof.
  intros Hc H. induction H as [| l ls [Ht Hb] _ IH]; [reflexivity |].
  unfold parseLines in *. simpl.
  rewrite parseLine_outside_block by assumption. exact IH.
Qed.

(** ** Counting events *)

Lemma count_line_cons (s l : string) (ls : list string) :
  count_line s (l :: ls)
  = ((if String.eqb s l then 1 else 0) + count_line s ls)%nat.
Proof. unfold count_line. simpl. now destruct (String.eqb s l). Qed.

Lemma assign_field_open f v st : open_count (assign_field f v st) = open_count st.
Proof.
  unfold assign_field, open_count.
  destruct (currentEvent st) eqn:E; cbn; [reflexivity | now rewrite E].
Qed.

(** One line: an event is emitted only by [END:VEVENT] closing an open
    block, and a block is opened only by [BEGIN:VEVENT]. *)
Lemma parseLine_counts (st : ParseState) (line : string) :
  (length (ps_events (parseLine st line)) + open_count (parseLine st line)
   <= length (ps_events st) + open_count st
      + (if String.eqb "BEGIN:VEVENT" line then 1 else 0))%nat
  /\ (length (ps_events (parseLine st line))
      <= length (ps_events st) + (if String.eqb "END:VEVENT" line then 1 else 0))%nat.
Proof.
  unfold parseLine. cbv zeta.
  rewrite (String.eqb_sym "BEGIN:VEVENT" line), (String.eqb_sym "END:VEVENT" line).
  destruct (strict_eq _ "X-WR-CALNAME").
  { unfold open_count. cbn. split; lia. }
  destruct (String.eqb line "BEGIN:VEVENT") eqn:Hb.
  { apply String.eqb_eq in Hb. subst line.
    unfold open_count. cbn. split; destruct (currentEvent st); lia. }
  destruct (String.eqb line "END:VEVENT") eqn:He.
  { unfold open_count.
    destruct (currentEvent st) eqn:E; cbn; rewrite ?E, ?length_app; cbn; split; lia. }
  repeat match goal with
         | |- context [if ?b then _ else _] => destruct b
         end;
    rewrite ?assign_field_events, ?assign_field_open; split; lia.
Qed.

Lemma parseLines_counts (lines : list string) (st : ParseState) :
  (length (ps_events (parseLines st lines)) + open_count (parseLines st lines)
   <= length (ps_events st) + open_count st + count_line "BEGIN:VEVENT" lines)%nat
  /\ (length (ps_events (parseLines st lines))
      <= length (ps_events st) + count_line "END:VEVENT" lines)%nat.
Proof.
  revert st. induction lines as [| l ls IH]; intros st.
  - unfold count_line. cbn. split; lia.
  - change (parseLines st (l :: ls)) with (parseLines (parseLine st l) ls).
    rewrite !count_line_cons.
    destruct (IH (parseLine st l)) as [IH1 IH2].
    destruct (parseLine_counts st l) as [H1 H2].
    split; lia.
Qed.

(** The parser emits at most one event per [BEGIN:VEVENT] line and at
    most one per [END:VEVENT] line of the input. *)
Theorem parseICS_event_count (this : Calendar) (data : string) :
  (length (events (parseICS this data))
   <= Nat.min (count_line "BEGIN:VEVENT" (split_lines data))
              (count_line "END:VEVENT" (split_lines data)))%nat.
Proof.
  unfold parseICS. cbn [events].
  destruct (parseLines_counts (split_lines data) (initialState this)) as [H1 H2].
  unfold initialState, open_count in *. cbn in H1, H2. lia.
Qed.

(** ** Restarting a block *)

(** A [BEGIN:VEVENT] line forgets whatever the block before it had
    gathered: when no [END:VEVENT] line lies between the two, parsing goes
    on as from a fresh block, with the events emitted so far and the
    title read so far. *)
Theorem begin_discards_open_block (st : ParseState) (junk rest : list string) :
  Forall (fun l => l <> "END:VEVENT") junk ->
  parseLines st (junk ++ "BEGIN:VEVENT" :: rest)
  = parseLines {| ps_title := ps_title (parseLines st junk);
                  ps_events := ps_events st;
                  currentEvent := Some emptyEvent |} rest.
Proof.
  intros Hjunk. rewrite parseLines_app.
  change (parseLines ?s (?l :: ?ls)) with (parseLines (parseLine s l) ls).
  rewrite parseLine_begin.
  now rewrite (parseLines_events st junk Hjunk).
Qed.

(** ** Line ends *)

(** A document parses to the same calendar whether its lines end in LF or
    in CRLF. *)
Theorem parseICS_line_ends (this : Calendar) (lines : list string) :
  lines <> [] ->
  Forall (fun l => line_text l = true) lines ->
  parseICS this (join_lines eol_CRLF lines) = parseICS this (join_lines eol_LF lines).
Proof.
  intros Hne Hall. unfold parseICS.
  rewrite !split_join_lines by (assumption || (left; reflexivity) || (right; reflexivity)).
  reflexivity.
Qed.

(** ** A title after the events *)

(** When the [X-WR-CALNAME] line comes after the blocks, the calendar gets
    the title but its events are stamped with the title the calendar had
    before: the empty string for a calendar just constructed. *)
Theorem parseICS_title_after_events (this : Calendar) (eol : string) (trailing : bool)
    (t : string) (bodies : list (list string)) (fields : list EventFields) :
  eol = eol_LF \/ eol = eol_CRLF ->
  line_text t = true ->
  Forall2 (fun body f => body ≡ₚ field_lines f /\ one_line_fields f = true) bodies fields ->
  parseICS this (ics_text eol trailing (flat_map vevent_lines bodies ++ [title_line t]))
  = {| title := line_value (title_line t);
       events := map (event_from (title this)) fields |}.
Proof.
  intros Heol Ht Hb.
  pose proof (ics_lines_text t bodies fields Ht Hb) as Hlines.
  unfold ics_lines in Hlines. apply Forall_cons in Hlines as [Htl Hblocks].
  unfold parseICS, ics_text.
  rewrite split_join_lines.
  - rewrite !parseLines_app.
    rewrite (parse_blocks (title this) bodies fields)
      by (reflexivity || (eapply Forall2_impl; [exact Hb | now intros ? ? [? _]])).
    change (parseLines ?s [?l]) with (parseLine s l).
    rewrite parseLine_title.
    destruct trailing; reflexivity.
  - exact Heol.
  - destruct (flat_map vevent_lines bodies); discriminate.
  - repeat (apply Forall_app; split); try assumption.
    + repeat constructor. exact Htl.
    + destruct trailing; repeat constructor.
Qed.

End ParserFurther.

(* ===================================================================== *)
(** * Further properties of the date codec                                *)
(* ===================================================================== *)

Section CodecFurther.

(** ** Rendering a number and parsing it back *)

Lemma read_uint_acc (d : Decimal.uint) (acc : positive) :
  read_digits (Some (Zpos acc)) (NilEmpty.string_of_uint d)
  = Some (Zpos (Pos.of_uint_acc d acc)).
Proof.
  revert acc. induction d; intros acc; cbn [NilEmpty.string_of_uint Pos.of_uint_acc];
    [reflexivity | ..];
    cbn [read_digits]; (match goal with
     | |- context [digit_of ?c] =>
         let v := eval vm_compute in (digit_of c) in
         change (digit_of c) with v
     end); cbn [from_option id];
    match goal with
    | |- read_digits (Some ?z) _ = Some (Zpos (Pos.of_uint_acc _ ?q)) =>
        replace z with (Zpos q) by lia
    end; apply IHd.
Qed.

Lemma read_uint_zero (d : Decimal.uint) :
  read_digits (Some 0) (NilEmpty.string_of_uint d) = Some (Z.of_N (Pos.of_uint d)).
Proof.
  induction d; cbn [NilEmpty.string_of_uint Pos.of_uint]; [reflexivity | ..];
    cbn [read_digits]; (match goal with
     | |- context [digit_of ?c] =>
         let v := eval vm_compute in (digit_of c) in
         change (digit_of c) with v
     end); cbn [from_option id];
    first [ exact IHd | apply read_uint_acc ].
Qed.

(** Parsing a run of digits that is not empty. *)
Lemma parseInt10_uint (d : Decimal.uint) :
  d <> Decimal.Nil ->
  parseInt10 (NilEmpty.string_of_uint d) = Num (Z.of_N (Pos.of_uint d))
  /\ parseInt10 (String "-" (NilEmpty.string_of_uint d)) = Num (- Z.of_N (Pos.of_uint d)).
Proof.
  intros Hd.
  assert (Hread : read_digits None (NilEmpty.string_of_uint d)
                  = Some (Z.of_N (Pos.of_uint d))).
  { rewrite <- read_uint_zero. destruct d; [congruence | reflexivity ..]. }
  split.
  - destruct d; [congruence | ..];
      unfold parseInt10; cbn [NilEmpty.string_of_uint skip_white] in *;
      (match goal with
       | |- context [is_white ?c] =>
           let v := eval vm_compute in (is_white c) in change (is_white c) with v
       end); cbv iota;
      (match goal with
       | |- context [char_eqb ?c "-"] =>
           let v := eval vm_compute in (char_eqb c "-") in change (char_eqb c "-") with v
       end); cbv iota;
      (match goal with
       | |- context [char_eqb ?c "+"] =>
           let v := eval vm_compute in (char_eqb c "+") in change (char_eqb c "+") with v
       end); cbv iota; now rewrite Hread.
  - unfold parseInt10. cbn [skip_white].
    change (is_white "-") with false. cbv iota.
    change (char_eqb "-" "-") with true. cbv iota.
    now rewrite Hread.
Qed.

Lemma to_uint_not_nil (p : positive) : Pos.to_uint p <> Decimal.Nil.
Proof.
  intros H. pose proof (DecimalPos.Unsigned.of_to p) as Hp.
  rewrite H in Hp. discriminate.
Qed.

Lemma string_of_uint_not_nil (d : Decimal.uint) :
  d <> Decimal.Nil -> NilZero.string_of_uint d = NilEmpty.string_of_uint d.
Proof. destruct d; [congruence | reflexivity ..]. Qed.

(** [parseInt] gives back the integer whose decimal rendering it reads. *)
Lemma parseInt10_decimal (z : Z) : parseInt10 (decimal z) = Num z.
Proof.
  unfold decimal. destruct z as [| p | p]; cbn [Z.to_int NilZero.string_of_int].
  - reflexivity.
  - pose proof (to_uint_not_nil p) as Hp.
    rewrite string_of_uint_not_nil by exact Hp.
    destruct (parseInt10_uint (Pos.to_uint p) Hp) as [-> _].
    now rewrite DecimalPos.Unsigned.of_to.
  - pose proof (to_uint_not_nil p) as Hp.
    rewrite string_of_uint_not_nil by exact Hp.
    destruct (parseInt10_uint (Pos.to_uint p) Hp) as [_ ->].
    now rewrite DecimalPos.Unsigned.of_to.
Qed.

(** ** Zero-padded ICS dates *)

Lemma digit_of_digit_char (n : Z) : 0 <= n <= 9 -> digit_of (digit_char n) = Some n.
Proof.
  intros Hn. unfold digit_of, digit_char.
  rewrite nat_ascii_embedding by lia.
  assert ((48 <=? 48 + Z.to_nat n)%nat = true) as -> by (apply Nat.leb_le; lia).
  assert ((48 + Z.to_nat n <=? 57)%nat = true) as -> by (apply Nat.leb_le; lia).
  cbn [andb]. f_equal. lia.
Qed.

Lemma parseInt10_pad2 (n : Z) : 0 <= n <= 99 -> parseInt10 (pad2 n) = Num n.
Proof.
  intros Hn.
  assert (H1 : 0 <= n / 10 <= 9) by (split; Z.to_euclidean_division_equations; lia).
  assert (H2 : 0 <= n mod 10 <= 9) by (split; Z.to_euclidean_division_equations; lia).
  unfold pad2. rewrite parseInt10_digits.
  - unfold decimal_value. cbn [String.list_ascii_of_string fold_left].
    rewrite !digit_of_digit_char by assumption. cbn [from_option id].
    f_equal. Z.to_euclidean_division_equations; lia.
  - unfold all_digits. cbn [String.list_ascii_of_string forallb].
    rewrite !digit_of_digit_char by assumption. reflexivity.
Qed.

Lemma parseInt10_pad4 (n : Z) : 0 <= n <= 9999 -> parseInt10 (pad4 n) = Num n.
Proof.
  intros Hn.
  assert (H1 : 0 <= n / 1000 <= 9) by (split; Z.to_euclidean_division_equations; lia).
  assert (H2 : 0 <= n / 100 mod 10 <= 9) by (split; Z.to_euclidean_division_equations; lia).
  assert (H3 : 0 <= n mod 100 / 10 <= 9) by (split; Z.to_euclidean_division_equations; lia).
  assert (H4 : 0 <= n mod 100 mod 10 <= 9) by (split; Z.to_euclidean_division_equations; lia).
  unfold pad4, pad2. rewrite parseInt10_digits.
  - unfold decimal_value. cbn [String.list_ascii_of_string fold_left].
    rewrite !digit_of_digit_char by assumption. cbn [from_option id].
    f_equal. Z.to_euclidean_division_equations; lia.
  - unfold all_digits. cbn [String.list_ascii_of_string forallb].
    rewrite !digit_of_digit_char by assumption. reflexivity.
Qed.

(** [formatICSDate] drops the padding: the zero-padded date [YYYYMMDD],
    whatever follows it, becomes the unpadded canonical date. *)
Lemma formatICSDate_padded (y m d : Z) (rest : string) :
  0 <= y <= 9999 -> 0 <= m <= 99 -> 0 <= d <= 99 ->
  formatICSDate (Some (icsDate_of y m d +:+ rest)) = canonicalDate y m d.
Proof.
  intros Hy Hm Hd.
  pose proof (parseInt10_pad4 y Hy) as Py.
  pose proof (parseInt10_pad2 m Hm) as Pm.
  pose proof (parseInt10_pad2 d Hd) as Pd.
  unfold icsDate_of, pad4, pad2 in *.
  unfold formatICSDate, js_substring.
  cbv beta iota delta [String.append].
  cbn [truthy negb orb String.length Nat.ltb Nat.leb Nat.sub String.substring].
  replace (String.substring 0 0 rest) with EmptyString by (destruct rest; reflexivity).
  rewrite Py, Pm, Pd. reflexivity.
Qed.

(** ** Packed day-keys *)

(** [keyToDate] reads back the date a day-key packs. *)
Lemma keyToDate_packed (y m d : Z) :
  1970 <= y <= 2225 -> 0 <= m <= 15 -> 0 <= d <= 31 ->
  keyToDate (Num (packDateKey y m d)) = canonicalDate y m d.
Proof.
  intros Hy Hm Hd. unfold keyToDate, canonicalDate.
  change 255 with (Z.ones 8). change 15 with (Z.ones 4). change 31 with (Z.ones 5).
  rewrite !js_field by lia. rewrite js_field0 by lia.
  rewrite !Z.land_ones, !Z.shiftr_div_pow2 by lia.
  change (2 ^ 9) with 512. change (2 ^ 8) with 256. change (2 ^ 5) with 32.
  change (2 ^ 4) with 16.
  unfold packDateKey, js_add, number_toString.
  replace (1970 + ((y - 1970) * 512 + m * 32 + d) / 512 mod 256) with y
    by (Z.to_euclidean_division_equations; lia).
  replace (((y - 1970) * 512 + m * 32 + d) / 32 mod 16) with m
    by (Z.to_euclidean_division_equations; lia).
  replace (((y - 1970) * 512 + m * 32 + d) mod 32) with d
    by (Z.to_euclidean_division_equations; lia).
  reflexivity.
Qed.

(** Decoding a packed date: the round trip of the day-key layout, for
    every year from 1970 to 2225, month field up to 15 and day field up
    to 31. *)
Theorem keyToDate_round_trip (y m d : Z) :
  1970 <= y <= 2225 -> 0 <= m <= 15 -> 0 <= d <= 31 ->
  keyToDate (Num (packDateKey y m d))
  = decimal y +:+ "-" +:+ decimal m +:+ "-" +:+ decimal d.
Proof. apply keyToDate_packed. Qed.

(** The zero-padded ICS date of an event becomes the unpadded canonical
    date, whatever follows its eight digits (a time part, say). *)
Theorem formatICSDate_unpads (y m d : Z) (rest : string) :
  0 <= y <= 9999 -> 0 <= m <= 99 -> 0 <= d <= 99 ->
  formatICSDate (Some (icsDate_of y m d +:+ rest))
  = decimal y +:+ "-" +:+ decimal m +:+ "-" +:+ decimal d.
Proof. apply formatICSDate_padded. Qed.

(** The day-key of a cell is read from its attribute text: a cell whose
    [data-datekey] is the decimal rendering of an integer [k] of magnitude
    at most 2^53 (the integers [parseInt] returns exactly) has the date
    [keyToDate k]. *)
Theorem cellDate_of_datekey (cell : Cell) (k : Z) :
  - 2 ^ 53 <= k <= 2 ^ 53 ->
  data_datekey cell = Some (decimal k) ->
  cellDate cell = keyToDate (Num k).
Proof.
  intros _ H. unfold cellDate. rewrite H. now rewrite parseInt10_decimal.
Qed.

(** The join key: a cell whose day-key packs a date and an event whose
    start is the ICS form of the same date meet on the same canonical
    string, so the event counts for the cell exactly when reading its
    calendar title from [calendarColors] gives a truthy value. *)
Theorem datekey_cell_meets_event (calendarColors : gmap string string)
    (cell : Cell) (event : CalendarEvent) (y m d : Z) (rest : string) :
  1970 <= y <= 2225 -> 0 <= m <= 15 -> 0 <= d <= 31 ->
  data_datekey cell = Some (decimal (packDateKey y m d)) ->
  start event = Some (icsDate_of y m d +:+ rest) ->
  formatICSDate (start event) = cellDate cell
  /\ eventMatches calendarColors (cellDate cell) event
     = truthy_opt (js_get calendarColors (to_key (calendarTitle event))).
Proof.
  intros Hy Hm Hd Hcell Hev.
  assert (Heq : formatICSDate (start event) = cellDate cell).
  { unfold cellDate. rewrite Hcell, Hev, parseInt10_decimal.
    rewrite keyToDate_packed by assumption.
    apply formatICSDate_padded; lia. }
  split; [exact Heq |].
  unfold eventMatches. rewrite Heq, String.eqb_refl. reflexivity.
Qed.

End CodecFurther.

(* ===================================================================== *)
(** * Further properties of the popup and its store                       *)
(* ===================================================================== *)

Section PopupFurther.

(** ** The remove buttons *)

Lemma removeButtons_lookup (l : list Calendar) (i : nat) :
  (i < length l)%nat ->
  removeButtons l !! i = Some (decimal (Z.of_nat i)).
Proof.
  intros Hi. unfold removeButtons.
  rewrite list_lookup_imap.
  destruct (lookup_lt_is_Some_2 l i Hi) as [cal ->]. reflexivity.
Qed.

(** The popup after an in-range removal. *)
Lemma removeCalendar_in_range (z : Z) (p : Popup) :
  0 <= z < Z.of_nat (length (loadedCalendars p)) ->
  removeCalendar (Num z) p
  = {| loadedCalendars := delete (Z.to_nat z) (loadedCalendars p);
       storage :=
         storage_set
           {| doc_dayColors := None; doc_calendarColors := None;
              doc_calendarEvents := None;
              doc_loadedCalendars := Some (delete (Z.to_nat z) (loadedCalendars p)) |}
           (storage p);
       setCalls :=
         setCalls p
         ++ [ {| doc_dayColors := None; doc_calendarColors := None;
                 doc_calendarEvents := None;
                 doc_loadedCalendars := Some (delete (Z.to_nat z) (loadedCalendars p)) |} ]
    |}.
Proof.
  intros Hz. unfold removeCalendar, js_lt, js_ge.
  assert ((z <? 0) = false) as -> by lia.
  assert ((Z.of_nat (length (loadedCalendars p)) <=? z) = false) as -> by lia.
  cbn [orb]. rewrite splice_in_range by exact Hz.
  unfold storage_sync_set. cbn [set_loadedCalendars loadedCalendars storage setCalls].
  now rewrite storedCalendars_id.
Qed.

(** Clicking the remove button rendered for the calendar at position [i]
    removes exactly that calendar from the working list and from the
    persisted list. *)
Theorem clickRemove_removes (p : Popup) (i : nat) (button : string) :
  removeButtons (loadedCalendars p) !! i = Some button ->
  loadedCalendars (clickRemove button p) = delete i (loadedCalendars p)
  /\ doc_loadedCalendars (storage (clickRemove button p))
     = Some (delete i (loadedCalendars p)).
Proof.
  intros Hb.
  assert (Hi : (i < length (loadedCalendars p))%nat).
  { apply lookup_lt_Some in Hb. unfold removeButtons in Hb.
    now rewrite length_imap in Hb. }
  rewrite removeButtons_lookup in Hb by exact Hi.
  injection Hb as <-.
  unfold clickRemove. rewrite parseInt10_decimal.
  rewrite removeCalendar_in_range by lia.
  rewrite Nat2Z.id. split; reflexivity.
Qed.

(** ** Loading, removing, reopening *)

Lemma delete_last {A : Type} (l : list A) (x : A) : delete (length l) (l ++ [x]) = l.
Proof.
  induction l as [| y l IH]; [reflexivity |].
  simpl. now rewrite IH.
Qed.

(** Loading a calendar and then removing the last entry gives back the
    working list and the persisted list as they were before the load. *)
Theorem load_then_remove_last (calendar : Calendar) (p : Popup) :
  let p' := removeCalendar (Num (Z.of_nat (length (loadedCalendars p))))
              (loadCalendar calendar p) in
  loadedCalendars p' = loadedCalendars p
  /\ doc_loadedCalendars (storage p') = Some (loadedCalendars p).
Proof.
  intros p'. subst p'.
  rewrite removeCalendar_in_range.
  - unfold loadCalendar, storage_sync_set.
    cbn [set_loadedCalendars loadedCalendars storage].
    rewrite Nat2Z.id, delete_last. split; reflexivity.
  - unfold loadCalendar, storage_sync_set.
    cbn [set_loadedCalendars loadedCalendars]. rewrite length_app. simpl. lia.
Qed.

(** [NaN] passes the guard of [removeCalendar]. *)
Lemma removeCalendar_NaN_unfold (p : Popup) :
  removeCalendar NaN p
  = storage_sync_set
      {| doc_dayColors := None; doc_calendarColors := None; doc_calendarEvents := None;
         doc_loadedCalendars := Some (drop 1 (loadedCalendars p)) |}
      (set_loadedCalendars (drop 1 (loadedCalendars p)) p).
Proof.
  unfold removeCalendar, js_lt, js_ge. cbn [orb].
  unfold splice, relative_start.
  cbn [set_loadedCalendars loadedCalendars take app].
  rewrite storedCalendars_id.
  replace (0 + Nat.min 1 (length (loadedCalendars p) - 0))%nat
    with (Nat.min 1 (length (loadedCalendars p))) by lia.
  destruct (loadedCalendars p) as [| cal l]; reflexivity.
Qed.

(** The guard of [removeCalendar] does not stop an index that is not a
    number: the first calendar is removed, and the store is written even
    when the list is empty. *)
Theorem removeCalendar_NaN (p : Popup) :
  loadedCalendars (removeCalendar NaN p) = drop 1 (loadedCalendars p)
  /\ doc_loadedCalendars (storage (removeCalendar NaN p)) = Some (drop 1 (loadedCalendars p))
  /\ length (setCalls (removeCalendar NaN p)) = S (length (setCalls p)).
Proof.
  rewrite removeCalendar_NaN_unfold. unfold storage_sync_set.
  cbn [set_loadedCalendars loadedCalendars storage setCalls storage_set
       doc_loadedCalendars override].
  repeat split. rewrite length_app. simpl. lia.
Qed.

(** ** The persisted list mirrors the working list *)

Lemma restoreCalendars_default (store : SettingsDocument) :
  restoreCalendars store = default [] (doc_loadedCalendars store).
Proof. unfold restoreCalendars. apply storedCalendars_id. Qed.

Lemma mirrored_load (calendar : Calendar) (p : Popup) : mirrored (loadCalendar calendar p).
Proof.
  unfold mirrored, loadCalendar, storage_sync_set. cbn.
  now rewrite storedCalendars_id.
Qed.

Lemma mirrored_submit (dayColors calendarColors : gmap string string) (p : Popup) :
  mirrored (submitSettings dayColors calendarColors p).
Proof.
  unfold mirrored, submitSettings, storage_sync_set. cbn.
  now rewrite storedCalendars_id.
Qed.

Lemma mirrored_remove (index : number) (p : Popup) :
  mirrored p -> mirrored (removeCalendar index p).
Proof.
  intros Hp. unfold removeCalendar.
  destruct (js_lt index (Num 0) || js_ge index _); [exact Hp |].
  unfold mirrored, storage_sync_set. cbn.
  now rewrite storedCalendars_id.
Qed.

Lemma mirrored_open (store : SettingsDocument) : mirrored (openPopup store).
Proof. unfold mirrored, openPopup. cbn. now rewrite restoreCalendars_default. Qed.

(** Every handler that writes the store leaves the persisted
    [loadedCalendars] equal to the working list, and a removal, whatever
    its index, keeps them equal; a popup just opened starts that way. *)
Theorem persisted_list_mirrors_working_list (p : Popup) (calendar : Calendar)
    (dayColors calendarColors : gmap string string) (index : number)
    (store : SettingsDocument) :
  mirrored (openPopup store)
  /\ mirrored (loadCalendar calendar p)
  /\ mirrored (submitSettings dayColors calendarColors p)
  /\ (mirrored p -> mirrored (removeCalendar index p)).
Proof.
  split; [apply mirrored_open |].
  split; [apply mirrored_load |].
  split; [apply mirrored_submit | apply mirrored_remove].
Qed.

(** Closing the popup and opening it again restores the working list as
    the last load, removal or save left it. *)
Theorem reopen_restores_working_list (p : Popup) (calendar : Calendar)
    (dayColors calendarColors : gmap string string) (z : Z) :
  loadedCalendars (openPopup (storage (loadCalendar calendar p)))
  = loadedCalendars (loadCalendar calendar p)
  /\ loadedCalendars (openPopup (storage (submitSettings dayColors calendarColors p)))
     = loadedCalendars (submitSettings dayColors calendarColors p)
  /\ (0 <= z < Z.of_nat (length (loadedCalendars p)) ->
      loadedCalendars (openPopup (storage (removeCalendar (Num z) p)))
      = loadedCalendars (removeCalendar (Num z) p)).
Proof.
  unfold openPopup. cbn [loadedCalendars]. rewrite !restoreCalendars_default.
  split; [apply mirrored_load |].
  split; [apply mirrored_submit |].
  intros Hz. rewrite removeCalendar_in_range by exact Hz. reflexivity.
Qed.

(** ** What the content script sees *)

Lemma applyCustomColors_reads `{host : HostPlatform} (d1 d2 : SettingsDocument)
    (dayCells : list Cell) :
  doc_dayColors d1 = doc_dayColors d2 ->
  doc_calendarColors d1 = doc_calendarColors d2 ->
  doc_calendarEvents d1 = doc_calendarEvents d2 ->
  applyCustomColors d1 dayCells = applyCustomColors d2 dayCells.
Proof. unfold applyCustomColors. now intros -> -> ->. Qed.

(** Loading or removing a calendar changes nothing of what the content
    script does: until the settings are saved, the cells are coloured from
    the maps and events of the last save, an event of a removed calendar
    included. *)
Theorem list_changes_do_not_recolour `{host : HostPlatform} (p : Popup)
    (calendar : Calendar) (index : number) (dayCells : list Cell) :
  applyCustomColors (storage (loadCalendar calendar p)) dayCells
  = applyCustomColors (storage p) dayCells
  /\ applyCustomColors (storage (removeCalendar index p)) dayCells
     = applyCustomColors (storage p) dayCells.
Proof.
  split.
  - apply applyCustomColors_reads; reflexivity.
  - unfold removeCalendar.
    destruct (js_lt index (Num 0) || js_ge index _); [reflexivity |].
    apply applyCustomColors_reads; reflexivity.
Qed.

(** After a save the content script colours the cells from the saved maps
    and from the events of the loaded calendars, in load order. *)
Theorem saved_settings_drive_colouring `{host : HostPlatform} (p : Popup)
    (dayColors calendarColors : gmap string string) (dayCells : list Cell) :
  applyCustomColors (storage (submitSettings dayColors calendarColors p)) dayCells
  = forEachCell dayColors calendarColors
      (concat (map events (loadedCalendars p))) dayCells.
Proof.
  unfold applyCustomColors, submitSettings, storage_sync_set, storage_set. cbn.
  now rewrite gatherEvents_concat.
Qed.

End PopupFurther.

(* ===================================================================== *)
(** * Further properties of colour resolution and of the annotator        *)
(* ===================================================================== *)

Lemma scanEvents_truthy (calendarColors : gmap string string) (dateStr : string)
    (events : list CalendarEvent) (appliedColor : option string) (c : string) :
  (forall a, appliedColor = Some a -> truthy a = true) ->
  scanEvents calendarColors dateStr events appliedColor = Some c ->
  truthy c = true.
Proof.
  intros Ha. induction events as [| event rest IH]; cbn [scanEvents].
  - apply Ha.
  - unfold eventMatches.
    destruct (String.eqb (formatICSDate (start event)) dateStr); cbn [andb]; [| exact IH].
    destruct (js_get calendarColors (to_key (calendarTitle event))) as [c' |] eqn:E;
      cbn [truthy_opt]; [| exact IH].
    destruct (truthy c') eqn:Hc; [| exact IH].
    now intros [= <-].
Qed.

Lemma resolveColor_truthy `{host : HostPlatform} (dayColors calendarColors : gmap string string)
    (events : list CalendarEvent) (dateStr c : string) :
  resolveColor dayColors calendarColors events dateStr = Some c -> truthy c = true.
Proof.
  unfold resolveColor. apply scanEvents_truthy.
  intros a. unfold or_null.
  destruct (truthy_opt (js_get dayColors (getWeekDayName dateStr))) eqn:E; [| discriminate].
  intros Ha. rewrite Ha in E. exact E.
Qed.

Section AnnotatorFurther.

Context `{host : HostPlatform}.

Variables dayColors calendarColors : gmap string string.

(** ** Colour resolution *)

Lemma resolved_colour_truthy_aux (events : list CalendarEvent) (dateStr : string) :
  truthy_opt (resolveColor dayColors calendarColors events dateStr)
  = bool_decide (is_Some (resolveColor dayColors calendarColors events dateStr)).
Proof.
  destruct (resolveColor dayColors calendarColors events dateStr) as [c |] eqn:E.
  - cbn [truthy_opt]. rewrite (resolveColor_truthy _ _ events dateStr c E).
    symmetry. apply bool_decide_eq_true. eauto.
  - symmetry. apply bool_decide_eq_false. now intros [? ?].
Qed.

(** A resolved colour is never the empty string: what colour resolution
    returns is either no colour or a colour the annotator applies. *)
Theorem resolved_colour_not_empty (events : list CalendarEvent) (dateStr c : string) :
  resolveColor dayColors calendarColors events dateStr = Some c -> c <> "".
Proof.
  intros H Hc. apply resolveColor_truthy in H. subst c. discriminate.
Qed.

Lemma scanEvents_app (dateStr : string) (l1 l2 : list CalendarEvent)
    (appliedColor : option string) :
  scanEvents calendarColors dateStr (l1 ++ l2) appliedColor
  = scanEvents calendarColors dateStr l1
      (scanEvents calendarColors dateStr l2 appliedColor).
Proof.
  induction l1 as [| event rest IH]; [reflexivity |].
  cbn [app scanEvents]. now rewrite IH.
Qed.

(** Load order is precedence: over the events of two calendars in a row,
    resolution is the scan of the first calendar's events, falling back,
    when none of them counts, on the resolution over the second's. *)
Theorem resolveColor_load_order (l1 l2 : list CalendarEvent) (dateStr : string) :
  resolveColor dayColors calendarColors (l1 ++ l2) dateStr
  = scanEvents calendarColors dateStr l1
      (resolveColor dayColors calendarColors l2 dateStr).
Proof. unfold resolveColor. apply scanEvents_app. Qed.

(** Events whose calendar title reads nothing, or an empty colour, from
    [calendarColors] take no part: resolution is the same without them. *)
Theorem resolveColor_enabled_only (events : list CalendarEvent) (dateStr : string) :
  resolveColor dayColors calendarColors (enabledEvents calendarColors events) dateStr
  = resolveColor dayColors calendarColors events dateStr.
Proof.
  unfold resolveColor, enabledEvents.
  induction events as [| event rest IH]; [reflexivity |].
  cbn [List.filter].
  destruct (truthy_opt (js_get calendarColors (to_key (calendarTitle event)))) eqn:E;
    cbn [scanEvents]; unfold eventMatches; rewrite E.
  - now rewrite IH.
  - rewrite andb_false_r. exact IH.
Qed.

Lemma unusable_start_empty (event : CalendarEvent) :
  unusable_start event = true -> formatICSDate (start event) = "".
Proof.
  unfold unusable_start, formatICSDate.
  destruct (start event) as [s |]; [| reflexivity].
  intros ->. now rewrite orb_true_r.
Qed.

Lemma scanEvents_unusable (dateStr : string) (events : list CalendarEvent)
    (appliedColor : option string) :
  truthy dateStr = true ->
  Forall (fun event => unusable_start event = true) events ->
  scanEvents calendarColors dateStr events appliedColor = appliedColor.
Proof.
  intros Hd H. induction H as [| event rest He _ IH]; [reflexivity |].
  cbn [scanEvents]. unfold eventMatches.
  rewrite (unusable_start_empty event He).
  destruct dateStr; [discriminate |]. cbn. exact IH.
Qed.

(** Events without a usable start date never colour a cell: the callback
    does to every cell what it does with no events at all. *)
Theorem unusable_events_ignored (events : list CalendarEvent) (cell : Cell) :
  Forall (fun event => unusable_start event = true) events ->
  applyToCell dayColors calendarColors events cell
  = applyToCell dayColors calendarColors [] cell.
Proof.
  intros H. unfold applyToCell.
  destruct (truthy (cellDate cell)) eqn:Hd; [| reflexivity].
  cbn [negb]. unfold resolveColor.
  now rewrite (scanEvents_unusable (cellDate cell) events _ Hd H).
Qed.

(** ** The pass over the cells *)

Lemma forEachCell_cells (events : list CalendarEvent) (dayCells : list Cell) :
  fst (forEachCell dayColors calendarColors events dayCells)
  = map (fun cell => fst (applyToCell dayColors calendarColors events cell)) dayCells.
Proof.
  induction dayCells as [| cell rest IH]; [reflexivity |].
  cbn [forEachCell map].
  destruct (applyToCell dayColors calendarColors events cell) as [cell' ws].
  destruct (forEachCell dayColors calendarColors events rest) as [rest' ws'].
  cbn [fst] in *. now rewrite IH.
Qed.

Lemma applyToCell_attrs (events : list CalendarEvent) (cell : Cell) :
  data_datekey (fst (applyToCell dayColors calendarColors events cell)) = data_datekey cell
  /\ data_date (fst (applyToCell dayColors calendarColors events cell)) = data_date cell.
Proof.
  unfold applyToCell.
  repeat match goal with
         | |- context [if ?b then _ else _] => destruct b
         end; split; reflexivity.
Qed.

(** A pass keeps the cells in number and order and never touches their
    date attributes. *)
Theorem pass_keeps_date_attributes (events : list CalendarEvent) (dayCells : list Cell) :
  Forall2 (fun cell cell' =>
             data_datekey cell' = data_datekey cell /\ data_date cell' = data_date cell)
    dayCells (fst (forEachCell dayColors calendarColors events dayCells)).
Proof.
  rewrite forEachCell_cells.
  induction dayCells as [| cell rest IH]; constructor; [| exact IH].
  apply applyToCell_attrs.
Qed.

Lemma applyToCell_marker (events : list CalendarEvent) (cell : Cell) :
  truthy (cellDate cell) = true ->
  truthy_opt (customColored (fst (applyToCell dayColors calendarColors events cell)))
  = truthy_opt (resolveColor dayColors calendarColors events (cellDate cell)).
Proof.
  intros Hd. unfold applyToCell. rewrite Hd. cbn [negb].
  destruct (truthy_opt (resolveColor dayColors calendarColors events (cellDate cell)));
    destruct (truthy_opt (customColored cell)) eqn:Hm; cbn; try reflexivity; exact Hm.
Qed.

(** After a pass, a cell with a date carries the marker exactly when the
    inputs resolve a colour for its date. *)
Theorem pass_marks_resolved_cells (events : list CalendarEvent) (dayCells : list Cell)
    (cell' : Cell) :
  cell' ∈ fst (forEachCell dayColors calendarColors events dayCells) ->
  truthy (cellDate cell') = true ->
  truthy_opt (customColored cell')
  = bool_decide (is_Some (resolveColor dayColors calendarColors events (cellDate cell'))).
Proof.
  rewrite forEachCell_cells. intros Hin Hd.
  apply list_elem_of_fmap in Hin as (cell & -> & _).
  destruct (applyToCell_attrs events cell) as [Hk Ha].
  assert (Hdate : cellDate (fst (applyToCell dayColors calendarColors events cell))
                  = cellDate cell) by (now apply cellDate_attrs).
  rewrite Hdate in *.
  rewrite applyToCell_marker by exact Hd.
  apply resolved_colour_truthy_aux.
Qed.

(** A cell without the marker, with a date for which a colour resolves,
    is coloured: the marker is set to [true], the background to the
    resolved colour and the opacity to the theme's value, by exactly these
    three writes; the pass leaves that cell at its position. *)
Theorem unmarked_cell_coloured (events : list CalendarEvent) (dayCells : list Cell)
    (i : nat) (cell : Cell) (c : string) :
  dayCells !! i = Some cell ->
  truthy (cellDate cell) = true ->
  resolveColor dayColors calendarColors events (cellDate cell) = Some c ->
  truthy_opt (customColored cell) = false ->
  applyToCell dayColors calendarColors events cell
  = (coloredCell c cell, [SetMarker "true"; SetBackgroundColor c; SetOpacity themeOpacity])
  /\ fst (forEachCell dayColors calendarColors events dayCells) !! i
     = Some (coloredCell c cell).
Proof.
  intros Hi Hd Hc Hm.
  assert (Hcell : applyToCell dayColors calendarColors events cell
                  = (coloredCell c cell,
                     [SetMarker "true"; SetBackgroundColor c; SetOpacity themeOpacity])).
  { unfold applyToCell. rewrite Hd, Hc, Hm. cbn [negb truthy_opt].
    now rewrite (resolveColor_truthy _ _ events (cellDate cell) c Hc). }
  split; [exact Hcell |].
  rewrite forEachCell_cells, list_lookup_fmap, Hi. cbn. now rewrite Hcell.
Qed.

(** A cell coloured by a pass is not restyled by a later pass, even when
    the inputs have changed and resolve another colour for its date: as
    long as some colour resolves, the later pass writes nothing and the
    cell keeps the colour it was given first. *)
Theorem marked_cell_keeps_first_colour
    (dayColors' calendarColors' : gmap string string)
    (events events' : list CalendarEvent) (cell : Cell) (c c' : string) :
  truthy (cellDate cell) = true ->
  truthy_opt (customColored cell) = false ->
  resolveColor dayColors calendarColors events (cellDate cell) = Some c ->
  resolveColor dayColors' calendarColors' events' (cellDate cell) = Some c' ->
  applyToCell dayColors' calendarColors' events'
    (fst (applyToCell dayColors calendarColors events cell))
  = (coloredCell c cell, []).
Proof.
  intros Hd Hm Hc Hc'.
  assert (Hcell : fst (applyToCell dayColors calendarColors events cell) = coloredCell c cell).
  { unfold applyToCell. rewrite Hd, Hc, Hm. cbn [negb truthy_opt].
    now rewrite (resolveColor_truthy _ _ events (cellDate cell) c Hc). }
  rewrite Hcell. unfold applyToCell.
  rewrite (cellDate_attrs (coloredCell c cell) cell) by reflexivity.
  rewrite Hd, Hc'. cbn [negb truthy_opt].
  assert (Ht : truthy c' = true) by (eapply resolveColor_truthy; exact Hc').
  rewrite Ht. reflexivity.
Qed.

(** An event that counts for the date overrides the weekday rule: as soon
    as one event counts, the resolved colour is what reading the title of
    a counting event from [calendarColors] gives, and the weekday colours
    play no part. *)
Theorem event_overrides_weekday (dayColors' : gmap string string)
    (events : list CalendarEvent) (dateStr : string) (event : CalendarEvent) :
  event ∈ events ->
  eventMatches calendarColors dateStr event = true ->
  resolveColor dayColors calendarColors events dateStr
  = resolveColor dayColors' calendarColors events dateStr
  /\ exists event', event' ∈ events
       /\ eventMatches calendarColors dateStr event' = true
       /\ resolveColor dayColors calendarColors events dateStr
          = js_get calendarColors (to_key (calendarTitle event')).
Proof.
  intros Hin Hmatch. unfold resolveColor.
  generalize (or_null (js_get dayColors (getWeekDayName dateStr))).
  generalize (or_null (js_get dayColors' (getWeekDayName dateStr))).
  intros a' a. induction events as [| e rest IH].
  - now apply elem_of_nil in Hin.
  - cbn [scanEvents]. destruct (eventMatches calendarColors dateStr e) eqn:He.
    + split; [reflexivity |]. exists e. split; [left | split; [exact He | reflexivity]].
    + apply elem_of_cons in Hin as [-> | Hin]; [congruence |].
      destruct (IH Hin) as [H1 (e' & He' & Hm' & Hr)].
      split; [exact H1 |]. exists e'. split; [right; exact He' | split; [exact Hm' | exact Hr]].
Qed.

End AnnotatorFurther.

(* ===================================================================== *)
(** * From the uploaded file to the coloured cell                         *)
(* ===================================================================== *)

Section EndToEnd.

Context `{host : HostPlatform}.

(** An own property hides the inherited one. *)
Lemma js_get_own (obj : gmap string string) (key v : string) :
  obj !! key = Some v -> js_get obj key = Some v.
Proof. unfold js_get. now intros ->. Qed.

(** Over the events of one calendar titled [t], the first event on the
    date gives the calendar's colour. *)
Lemma scanEvents_one_calendar (calendarColors : gmap string string) (dateStr t c : string)
    (fields : list EventFields) (f : EventFields) (appliedColor : option string) :
  f ∈ fields ->
  formatICSDate (Some (f_start f)) = dateStr ->
  calendarColors !! t = Some c ->
  truthy c = true ->
  scanEvents calendarColors dateStr (map (event_of t) fields) appliedColor = Some c.
Proof.
  intros Hin Hdate Hc Ht. induction fields as [| f0 rest IH].
  - now apply elem_of_nil in Hin.
  - cbn [map scanEvents]. unfold eventMatches. cbn [event_of start calendarTitle to_key].
    rewrite (js_get_own _ _ _ Hc). cbn [truthy_opt]. rewrite Ht, andb_true_r.
    destruct (String.eqb (formatICSDate (Some (f_start f0))) dateStr) eqn:E;
      [reflexivity |].
    apply elem_of_cons in Hin as [-> | Hin].
    + rewrite Hdate, String.eqb_refl in E. discriminate.
    + fold (map (event_of t) rest). unfold eventMatches in IH.
      cbn [event_of start calendarTitle to_key] in IH. now apply IH.
Qed.

(** The whole pipeline.  A hand-built document with colon-free texts is
    parsed, loaded into an empty popup and saved with a non-empty colour
    for its title; a cell without the marker whose day-key packs the start
    date of one of its events is then given that colour by the content
    script, whatever the weekday colours. *)
Theorem uploaded_event_colours_cell (eol : string) (trailing : bool) (t : string)
    (bodies : list (list string)) (fields : list EventFields)
    (dayColors calendarColors : gmap string string)
    (f : EventFields) (y m d : Z) (rest c : string) (cell : Cell) :
  eol = eol_LF \/ eol = eol_CRLF ->
  line_text t = true ->
  no_char colon t = true ->
  Forall2 (fun body f => body ≡ₚ field_lines f /\ one_line_fields f = true) bodies fields ->
  Forall (fun f => colon_free_fields f = true) fields ->
  f ∈ fields ->
  f_start f = icsDate_of y m d +:+ rest ->
  1970 <= y <= 2225 -> 0 <= m <= 15 -> 0 <= d <= 31 ->
  calendarColors !! t = Some c ->
  c <> "" ->
  data_datekey cell = Some (decimal (packDateKey y m d)) ->
  truthy_opt (customColored cell) = false ->
  let calendar := parseICS newCalendar (ics_text eol trailing (ics_lines t bodies)) in
  let p := submitSettings dayColors calendarColors (loadCalendar calendar emptyPopup) in
  applyCustomColors (storage p) [cell]
  = ([coloredCell c cell],
     [SetMarker "true"; SetBackgroundColor c; SetOpacity themeOpacity]).
Proof.
  intros Heol Ht Hcolon Hb Hfields Hin Hstart Hy Hm Hd Hc Hne Hkey Hmark calendar p.
  assert (Hcal : calendar = {| title := Some t; events := map (event_of t) fields |}).
  { subst calendar. rewrite (parseICS_document _ _ _ _ _ fields) by assumption.
    unfold title_line.
    change ("X-WR-CALNAME:" +:+ t) with ("X-WR-CALNAME" +:+ String colon t).
    rewrite line_value_colon_free by (assumption || reflexivity).
    f_equal. apply map_ext_in. intros f' Hf'.
    apply event_from_colon_free.
    rewrite Forall_forall in Hfields. apply Hfields. now apply list_elem_of_In. }
  assert (Hdate : cellDate cell = canonicalDate y m d).
  { unfold cellDate. rewrite Hkey, parseInt10_decimal. now apply keyToDate_packed. }
  assert (Htruthy : truthy c = true) by (destruct c; [congruence | reflexivity]).
  assert (Hres : resolveColor dayColors calendarColors (map (event_of t) fields)
                   (cellDate cell) = Some c).
  { unfold resolveColor.
    apply (scanEvents_one_calendar calendarColors (cellDate cell) t c fields f);
      try assumption.
    rewrite Hstart, Hdate. apply formatICSDate_padded; lia. }
  subst p. unfold applyCustomColors, submitSettings, storage_sync_set, storage_set.
  cbn [storage doc_dayColors doc_calendarColors doc_calendarEvents override
       loadedCalendars loadCalendar set_loadedCalendars emptyPopup app].
  cbn [from_option id]. rewrite gatherEvents_concat.
  unfold loadCalendar, storage_sync_set, emptyPopup.
  cbn [loadedCalendars set_loadedCalendars app map concat].
  rewrite app_nil_r, Hcal. cbn [events].
  assert (Hd' : truthy (cellDate cell) = true).
  { rewrite Hdate. unfold canonicalDate. now destruct (decimal y). }
  cbn [forEachCell]. unfold applyToCell.
  rewrite Hd', Hres. cbn [truthy_opt]. rewrite Htruthy, Hmark.
  reflexivity.
Qed.

End EndToEnd.

(* ===================================================================== *)
(** * The further properties on concrete inputs                           *)
(* ===================================================================== *)

Lemma parseICS_no_title_line_witness :
  Forall (fun l => is_title_line l = false) (split_lines example_untitled)
  /\ title (parseICS newCalendar example_untitled) = title newCalendar.
Proof.
  assert (H : Forall (fun l => is_title_line l = false) (split_lines example_untitled))
    by (repeat constructor).
  split; [exact H | exact (parseICS_no_title_line newCalendar example_untitled H)].
Defined.

Lemma parseICS_last_title_wins_witness :
  split_lines example_retitled = example_retitled_pre ++ "X-WR-CALNAME:Second" :: [""]
  /\ is_title_line "X-WR-CALNAME:Second" = true
  /\ Forall (fun l => is_title_line l = false) [""]
  /\ title (parseICS newCalendar example_retitled) = line_value "X-WR-CALNAME:Second".
Proof.
  assert (H1 : split_lines example_retitled
               = example_retitled_pre ++ "X-WR-CALNAME:Second" :: [""]) by reflexivity.
  assert (H2 : is_title_line "X-WR-CALNAME:Second" = true) by reflexivity.
  assert (H3 : Forall (fun l => is_title_line l = false) [""]) by (repeat constructor).
  split; [exact H1 | split; [exact H2 | split; [exact H3 |]]].
  exact (parseICS_last_title_wins newCalendar example_retitled "X-WR-CALNAME:Second"
           example_retitled_pre [""] H1 H2 H3).
Defined.

Lemma parseLines_outside_block_witness :
  currentEvent (initialState newCalendar) = None
  /\ Forall (fun l => is_title_line l = false /\ l <> "BEGIN:VEVENT") example_stray_lines
  /\ parseLines (initialState newCalendar) example_stray_lines = initialState newCalendar.
Proof.
  assert (H1 : currentEvent (initialState newCalendar) = None) by reflexivity.
  assert (H2 : Forall (fun l => is_title_line l = false /\ l <> "BEGIN:VEVENT")
                 example_stray_lines)
    by (repeat constructor; discriminate).
  split; [exact H1 | split; [exact H2 |]].
  exact (parseLines_outside_block (initialState newCalendar) example_stray_lines H1 H2).
Defined.

Lemma begin_discards_open_block_witness :
  Forall (fun l => l <> "END:VEVENT") ["BEGIN:VEVENT"; "SUMMARY:old"]
  /\ ps_events (parseLines (initialState newCalendar)
       (["BEGIN:VEVENT"; "SUMMARY:old"]
        ++ "BEGIN:VEVENT" :: ["DTSTART;VALUE=DATE:20240115"; "END:VEVENT"]))
     = [ {| start := Some "20240115"; end_ := None; name := None;
            calendarTitle := Some "" |} ].
Proof.
  assert (H : Forall (fun l => l <> "END:VEVENT") ["BEGIN:VEVENT"; "SUMMARY:old"])
    by (repeat constructor; discriminate).
  split; [exact H |].
  rewrite (begin_discards_open_block (initialState newCalendar)
             ["BEGIN:VEVENT"; "SUMMARY:old"]
             ["DTSTART;VALUE=DATE:20240115"; "END:VEVENT"] H).
  reflexivity.
Defined.

Lemma parseICS_line_ends_witness :
  example_closed_lines <> []
  /\ Forall (fun l => line_text l = true) example_closed_lines
  /\ parseICS newCalendar (join_lines eol_CRLF example_closed_lines)
     = parseICS newCalendar (join_lines eol_LF example_closed_lines).
Proof.
  assert (H1 : example_closed_lines <> []) by discriminate.
  assert (H2 : Forall (fun l => line_text l = true) example_closed_lines)
    by (repeat constructor).
  split; [exact H1 | split; [exact H2 |]].
  exact (parseICS_line_ends newCalendar example_closed_lines H1 H2).
Defined.

Lemma example_bodies_fields :
  Forall2 (fun body f => body ≡ₚ field_lines f /\ one_line_fields f = true)
    example_bodies example_fields.
Proof.
  constructor; [split; reflexivity |].
  constructor; [| constructor].
  split; [| reflexivity].
  unfold field_lines. cbn.
  etransitivity; [apply perm_swap |].
  etransitivity; [apply perm_skip, perm_swap |].
  etransitivity; [apply perm_swap |].
  reflexivity.
Defined.

Lemma parseICS_title_after_events_witness :
  (eol_LF = eol_LF \/ eol_LF = eol_CRLF)
  /\ line_text "Work" = true
  /\ Forall2 (fun body f => body ≡ₚ field_lines f /\ one_line_fields f = true)
       example_bodies example_fields
  /\ parseICS newCalendar
       (ics_text eol_LF false (flat_map vevent_lines example_bodies ++ [title_line "Work"]))
     = {| title := line_value (title_line "Work");
          events := map (event_from (title newCalendar)) example_fields |}.
Proof.
  assert (H1 : eol_LF = eol_LF \/ eol_LF = eol_CRLF) by (left; reflexivity).
  assert (H2 : line_text "Work" = true) by reflexivity.
  split; [exact H1 | split; [exact H2 | split; [exact example_bodies_fields |]]].
  exact (parseICS_title_after_events newCalendar eol_LF false "Work"
           example_bodies example_fields H1 H2 example_bodies_fields).
Defined.

Lemma keyToDate_round_trip_witness :
  1970 <= 2024 <= 2225 /\ 0 <= 1 <= 15 /\ 0 <= 15 <= 31
  /\ keyToDate (Num (packDateKey 2024 1 15))
     = decimal 2024 +:+ "-" +:+ decimal 1 +:+ "-" +:+ decimal 15.
Proof.
  assert (H1 : 1970 <= 2024 <= 2225) by lia.
  assert (H2 : 0 <= 1 <= 15) by lia.
  assert (H3 : 0 <= 15 <= 31) by lia.
  split; [exact H1 | split; [exact H2 | split; [exact H3 |]]].
  exact (keyToDate_round_trip 2024 1 15 H1 H2 H3).
Defined.

Lemma formatICSDate_unpads_witness :
  0 <= 2024 <= 9999 /\ 0 <= 1 <= 99 /\ 0 <= 5 <= 99
  /\ formatICSDate (Some (icsDate_of 2024 1 5 +:+ "T090000"))
     = decimal 2024 +:+ "-" +:+ decimal 1 +:+ "-" +:+ decimal 5.
Proof.
  assert (H1 : 0 <= 2024 <= 9999) by lia.
  assert (H2 : 0 <= 1 <= 99) by lia.
  assert (H3 : 0 <= 5 <= 99) by lia.
  split; [exact H1 | split; [exact H2 | split; [exact H3 |]]].
  exact (formatICSDate_unpads 2024 1 5 "T090000" H1 H2 H3).
Defined.

Lemma cellDate_of_datekey_witness :
  - 2 ^ 53 <= 27695 <= 2 ^ 53
  /\ data_datekey example_plain_cell = Some (decimal 27695)
  /\ cellDate example_plain_cell = keyToDate (Num 27695).
Proof.
  assert (H0 : - 2 ^ 53 <= 27695 <= 2 ^ 53) by lia.
  assert (H : data_datekey example_plain_cell = Some (decimal 27695)) by reflexivity.
  split; [exact H0 | split; [exact H |]].
  exact (cellDate_of_datekey example_plain_cell 27695 H0 H).
Defined.

Lemma datekey_cell_meets_event_witness :
  1970 <= 2024 <= 2225 /\ 0 <= 1 <= 15 /\ 0 <= 15 <= 31
  /\ data_datekey example_plain_cell = Some (decimal (packDateKey 2024 1 15))
  /\ start example_work_event = Some (icsDate_of 2024 1 15 +:+ "")
  /\ formatICSDate (start example_work_event) = cellDate example_plain_cell.
Proof.
  assert (H1 : 1970 <= 2024 <= 2225) by lia.
  assert (H2 : 0 <= 1 <= 15) by lia.
  assert (H3 : 0 <= 15 <= 31) by lia.
  assert (H4 : data_datekey example_plain_cell = Some (decimal (packDateKey 2024 1 15)))
    by reflexivity.
  assert (H5 : start example_work_event = Some (icsDate_of 2024 1 15 +:+ ""))
    by reflexivity.
  split; [exact H1 | split; [exact H2 | split; [exact H3 | split; [exact H4 |
    split; [exact H5 |]]]]].
  exact (proj1 (datekey_cell_meets_event example_green_work example_plain_cell
                  example_work_event 2024 1 15 "" H1 H2 H3 H4 H5)).
Defined.

Lemma clickRemove_removes_witness :
  removeButtons (loadedCalendars example_popup) !! 0%nat = Some "0"
  /\ loadedCalendars (clickRemove "0" example_popup) = delete 0%nat (loadedCalendars example_popup).
Proof.
  assert (H : removeButtons (loadedCalendars example_popup) !! 0%nat = Some "0")
    by reflexivity.
  split; [exact H | exact (proj1 (clickRemove_removes example_popup 0%nat "0" H))].
Defined.

Lemma persisted_list_mirrors_working_list_witness :
  mirrored example_popup /\ mirrored (removeCalendar (Num 0) example_popup).
Proof.
  assert (H : mirrored example_popup) by reflexivity.
  split; [exact H |].
  exact (proj2 (proj2 (proj2
    (persisted_list_mirrors_working_list example_popup example_calendar ∅ ∅ (Num 0) emptyDoc)))
    H).
Defined.

Lemma reopen_restores_working_list_witness :
  0 <= 0 < Z.of_nat (length (loadedCalendars example_popup))
  /\ loadedCalendars (openPopup (storage (removeCalendar (Num 0) example_popup)))
     = loadedCalendars (removeCalendar (Num 0) example_popup).
Proof.
  assert (H : 0 <= 0 < Z.of_nat (length (loadedCalendars example_popup)))
    by (vm_compute; split; [discriminate | reflexivity]).
  split; [exact H |].
  exact (proj2 (proj2
    (reopen_restores_working_list example_popup example_calendar ∅ ∅ 0)) H).
Defined.

Lemma resolved_colour_not_empty_witness :
  resolveColor (H := lightHost) example_blue_mondays ∅ [] "2024-1-15" = Some "blue"
  /\ "blue" <> "".
Proof.
  assert (H : resolveColor (H := lightHost) example_blue_mondays ∅ [] "2024-1-15"
              = Some "blue") by (vm_compute; reflexivity).
  split; [exact H |].
  exact (resolved_colour_not_empty (host := lightHost) example_blue_mondays ∅ []
           "2024-1-15" "blue" H).
Defined.

Lemma unusable_events_ignored_witness :
  Forall (fun event => unusable_start event = true)
    [emptyEvent; set_start (Some "2024") emptyEvent]
  /\ applyToCell (H := lightHost) example_blue_mondays example_green_work
       [emptyEvent; set_start (Some "2024") emptyEvent] example_plain_cell
     = applyToCell (H := lightHost) example_blue_mondays example_green_work []
         example_plain_cell.
Proof.
  assert (H : Forall (fun event => unusable_start event = true)
                [emptyEvent; set_start (Some "2024") emptyEvent])
    by (repeat constructor).
  split; [exact H |].
  exact (unusable_events_ignored (host := lightHost) example_blue_mondays
           example_green_work _ example_plain_cell H).
Defined.

Lemma pass_marks_resolved_cells_witness :
  coloredCell (H := lightHost) "blue" example_plain_cell
    ∈ fst (forEachCell (H := lightHost) example_blue_mondays ∅ [] [example_plain_cell])
  /\ truthy (cellDate (coloredCell (H := lightHost) "blue" example_plain_cell)) = true
  /\ truthy_opt (customColored (coloredCell (H := lightHost) "blue" example_plain_cell))
     = bool_decide (is_Some (resolveColor (H := lightHost) example_blue_mondays ∅ []
                               (cellDate (coloredCell (H := lightHost) "blue"
                                            example_plain_cell)))).
Proof.
  assert (H1 : coloredCell (H := lightHost) "blue" example_plain_cell
               ∈ fst (forEachCell (H := lightHost) example_blue_mondays ∅ []
                        [example_plain_cell])).
  { assert (E : fst (forEachCell (H := lightHost) example_blue_mondays ∅ []
                       [example_plain_cell])
                = [coloredCell (H := lightHost) "blue" example_plain_cell])
      by (vm_compute; reflexivity).
    rewrite E. left. }
  assert (H2 : truthy (cellDate (coloredCell (H := lightHost) "blue" example_plain_cell))
               = true) by reflexivity.
  split; [exact H1 | split; [exact H2 |]].
  exact (pass_marks_resolved_cells (host := lightHost) example_blue_mondays ∅ []
           [example_plain_cell] _ H1 H2).
Defined.

Lemma unmarked_cell_coloured_witness :
  [example_plain_cell] !! 0%nat = Some example_plain_cell
  /\ truthy (cellDate example_plain_cell) = true
  /\ resolveColor (H := lightHost) example_blue_mondays ∅ [] (cellDate example_plain_cell)
     = Some "blue"
  /\ truthy_opt (customColored example_plain_cell) = false
  /\ applyToCell (H := lightHost) example_blue_mondays ∅ [] example_plain_cell
     = (coloredCell (H := lightHost) "blue" example_plain_cell,
        [SetMarker "true"; SetBackgroundColor "blue";
         SetOpacity (themeOpacity (H := lightHost))]).
Proof.
  assert (H1 : [example_plain_cell] !! 0%nat = Some example_plain_cell) by reflexivity.
  assert (H2 : truthy (cellDate example_plain_cell) = true) by reflexivity.
  assert (H3 : resolveColor (H := lightHost) example_blue_mondays ∅ []
                 (cellDate example_plain_cell) = Some "blue") by (vm_compute; reflexivity).
  assert (H4 : truthy_opt (customColored example_plain_cell) = false) by reflexivity.
  split; [exact H1 | split; [exact H2 | split; [exact H3 | split; [exact H4 |]]]].
  exact (proj1 (unmarked_cell_coloured (host := lightHost) example_blue_mondays ∅ []
                  [example_plain_cell] 0%nat example_plain_cell "blue" H1 H2 H3 H4)).
Defined.

Lemma marked_cell_keeps_first_colour_witness :
  truthy (cellDate example_plain_cell) = true
  /\ truthy_opt (customColored example_plain_cell) = false
  /\ resolveColor (H := lightHost) example_blue_mondays ∅ [] (cellDate example_plain_cell)
     = Some "blue"
  /\ resolveColor (H := lightHost) example_red_mondays ∅ [] (cellDate example_plain_cell)
     = Some "red"
  /\ applyToCell (H := lightHost) example_red_mondays ∅ []
       (fst (applyToCell (H := lightHost) example_blue_mondays ∅ [] example_plain_cell))
     = (coloredCell (H := lightHost) "blue" example_plain_cell, []).
Proof.
  assert (H1 : truthy (cellDate example_plain_cell) = true) by reflexivity.
  assert (H2 : truthy_opt (customColored example_plain_cell) = false) by reflexivity.
  assert (H3 : resolveColor (H := lightHost) example_blue_mondays ∅ []
                 (cellDate example_plain_cell) = Some "blue") by (vm_compute; reflexivity).
  assert (H4 : resolveColor (H := lightHost) example_red_mondays ∅ []
                 (cellDate example_plain_cell) = Some "red") by (vm_compute; reflexivity).
  split; [exact H1 | split; [exact H2 | split; [exact H3 | split; [exact H4 |]]]].
  exact (marked_cell_keeps_first_colour (host := lightHost) example_blue_mondays ∅
           example_red_mondays ∅ [] [] example_plain_cell "blue" "red" H1 H2 H3 H4).
Defined.

Lemma event_overrides_weekday_witness :
  example_work_event ∈ [example_work_event]
  /\ eventMatches example_green_work "2024-1-15" example_work_event = true
  /\ resolveColor (H := lightHost) example_blue_mondays example_green_work
       [example_work_event] "2024-1-15"
     = resolveColor (H := lightHost) example_red_mondays example_green_work
         [example_work_event] "2024-1-15".
Proof.
  assert (H1 : example_work_event ∈ [example_work_event]) by left.
  assert (H2 : eventMatches example_green_work "2024-1-15" example_work_event = true)
    by (vm_compute; reflexivity).
  split; [exact H1 | split; [exact H2 |]].
  exact (proj1 (event_overrides_weekday (host := lightHost) example_blue_mondays
                  example_green_work example_red_mondays [example_work_event]
                  "2024-1-15" example_work_event H1 H2)).
Defined.

Lemma uploaded_event_colours_cell_witness :
  applyCustomColors (H := lightHost)
    (storage (submitSettings example_blue_mondays example_green_work
                (loadCalendar
                   (parseICS newCalendar
                      (ics_text eol_CRLF true (ics_lines "Work" example_bodies)))
                   emptyPopup)))
    [example_plain_cell]
  = ([coloredCell (H := lightHost) "green" example_plain_cell],
     [SetMarker "true"; SetBackgroundColor "green";
      SetOpacity (themeOpacity (H := lightHost))]).
Proof.
  refine (uploaded_event_colours_cell (host := lightHost) eol_CRLF true "Work"
            example_bodies example_fields example_blue_mondays example_green_work
            {| f_start := "20240115"; f_end := "20240116"; f_summary := "Lunch" |}
            2024 1 15 "" "green" example_plain_cell
            _ _ _ example_bodies_fields _ _ _ _ _ _ _ _ _ _).
  - right. reflexivity.
  - reflexivity.
  - reflexivity.
  - repeat constructor.
  - left.
  - reflexivity.
  - lia.
  - lia.
  - lia.
  - vm_compute. reflexivity.
  - discriminate.
  - reflexivity.
  - reflexivity.
Defined.
